(** * python-diagrams-mcp: the render handler of [server.py]

  A shallow embedding of [get_mime_type], [render_diagram] and
  [call_tool] from [packages/python-diagrams-mcp/server.py], together
  with the pieces of the Python runtime they lean on ([str.endswith],
  the [in] operator on strings, [bytes.decode("utf-8")],
  [base64.b64encode], [pathlib.PurePosixPath]).

  Conventions.
  - A Python [str] is represented by the byte string of its UTF-8
    encoding (Rocq's [string]), a Python [bytes] by [list byte].
  - Effects are recorded: every call the handler makes to the operating
    system or to [exec] is appended to a log of [Event]s, and an
    exception that is not caught ends the computation with [Raise]. *)

From Stdlib Require Import String Ascii List NArith Lia Bool.
From Stdlib.Strings Require Import Byte.
From stdpp Require Import base option gmap strings list.

(** ** Python strings *)

Module PyStr.

(** [s.endswith(suffix)] *)
Fixpoint endswith (s suffix : string) : bool :=
  String.eqb s suffix ||
  match s with
  | EmptyString => false
  | String _ s' => endswith s' suffix
  end.

(** [needle in s] *)
Fixpoint contains (needle s : string) : bool :=
  String.prefix needle s ||
  match s with
  | EmptyString => false
  | String _ s' => contains needle s'
  end.

(** [sep.join(parts)] *)
Fixpoint join (sep : string) (parts : list string) : string :=
  match parts with
  | [] => ""
  | [p] => p
  | p :: ps => p +:+ sep +:+ join sep ps
  end.

(** [s.split(c)] for a one-character separator: the pieces between the
    occurrences of [c], empty pieces included. *)
Fixpoint split (c : ascii) (s : string) : list string :=
  match s with
  | EmptyString => [""]
  | String a s' =>
      if Ascii.eqb a c then "" :: split c s'
      else match split c s' with
           | [] => [String a ""]
           | p :: ps => String a p :: ps
           end
  end.

(** Truth value of an optional string: [None] and [""] are falsy. *)
Definition truthy (o : option string) : bool :=
  match o with
  | Some s => negb (String.eqb s "")
  | None => false
  end.

End PyStr.

(** ** Python bytes *)

Module PyBytes.

Definition between (lo hi : N) (b : byte) : bool :=
  (lo <=? Byte.to_N b)%N && (Byte.to_N b <=? hi)%N.

Definition continuation : byte -> bool := between 0x80 0xBF.

(** The strict UTF-8 decoder of CPython accepts exactly the well-formed
    byte sequences of the Unicode standard (no overlong forms, no
    surrogates, nothing above U+10FFFF).  [first_ill_formed bs pos] is
    [None] when [bs] is well formed, and otherwise the offset (counted
    from [pos]) of the lead byte of the first ill-formed sequence: the
    [start] attribute of the [UnicodeDecodeError]. *)
Fixpoint first_ill_formed (bs : list byte) (pos : nat) : option nat :=
  match bs with
  | [] => None
  | b0 :: r0 =>
      if between 0x00 0x7F b0 then first_ill_formed r0 (1 + pos)
      else if between 0xC2 0xDF b0 then
        match r0 with
        | b1 :: r1 =>
            if continuation b1 then first_ill_formed r1 (2 + pos)
            else Some pos
        | _ => Some pos
        end
      else if between 0xE0 0xEF b0 then
        match r0 with
        | b1 :: b2 :: r2 =>
            if (if between 0xE0 0xE0 b0 then between 0xA0 0xBF b1
                else if between 0xED 0xED b0 then between 0x80 0x9F b1
                else continuation b1)
               && continuation b2
            then first_ill_formed r2 (3 + pos)
            else Some pos
        | _ => Some pos
        end
      else if between 0xF0 0xF4 b0 then
        match r0 with
        | b1 :: b2 :: b3 :: r3 =>
            if (if between 0xF0 0xF0 b0 then between 0x90 0xBF b1
                else if between 0xF4 0xF4 b0 then between 0x80 0x8F b1
                else continuation b1)
               && continuation b2 && continuation b3
            then first_ill_formed r3 (4 + pos)
            else Some pos
        | _ => Some pos
        end
      else Some pos
  end.

Definition utf8_valid (bs : list byte) : bool :=
  match first_ill_formed bs 0 with
  | None => true
  | Some _ => false
  end.

(** [bs.decode("utf-8")]: the text (kept in its UTF-8 encoding), or the
    offset at which decoding fails. *)
Definition decode (bs : list byte) : string + nat :=
  match first_ill_formed bs 0 with
  | None => inl (string_of_list_byte bs)
  | Some start => inr start
  end.

(** *** base64 *)

Definition b64_alphabet : string :=
  "ABCDEFGHIJKLMNOPQRSTUVWXYZabcdefghijklmnopqrstuvwxyz0123456789+/".

Definition b64_digit (i : N) : ascii :=
  match String.get (N.to_nat (N.land i 63)) b64_alphabet with
  | Some c => c
  | None => "="%char
  end.

(** The 24-bit group of three input bytes. *)
Definition group (a b c : byte) : N :=
  N.lor (N.shiftl (Byte.to_N a) 16)
        (N.lor (N.shiftl (Byte.to_N b) 8) (Byte.to_N c)).

(** [base64.b64encode(bs).decode()] *)
Fixpoint b64encode (bs : list byte) : string :=
  match bs with
  | [] => ""
  | [a] =>
      let g := group a x00 x00 in
      String (b64_digit (N.shiftr g 18))
        (String (b64_digit (N.shiftr g 12)) "==")
  | [a; b] =>
      let g := group a b x00 in
      String (b64_digit (N.shiftr g 18))
        (String (b64_digit (N.shiftr g 12))
           (String (b64_digit (N.shiftr g 6)) "="))
  | a :: b :: c :: rest =>
      let g := group a b c in
      String (b64_digit (N.shiftr g 18))
        (String (b64_digit (N.shiftr g 12))
           (String (b64_digit (N.shiftr g 6))
              (String (b64_digit g) (b64encode rest))))
  end.

End PyBytes.

(** ** pathlib *)

Module PurePosixPath.

(** A parsed path: its root (["" ], ["/"] or ["//"]) and its
    components, with empty and ["."] components dropped. *)
Record t := mk { root : string; parts : list string }.

Definition kept (c : string) : bool :=
  negb (String.eqb c "") && negb (String.eqb c ".").

Definition parse_root (s : string) : string :=
  if String.prefix "///" s then "/"
  else if String.prefix "//" s then "//"
  else if String.prefix "/" s then "/"
  else "".

(** [PurePosixPath(s)] *)
Definition parse (s : string) : t :=
  {| root := parse_root s;
     parts := List.filter kept (PyStr.split "/" s) |}.

(** [p / s]: an absolute right operand replaces the left one. *)
Definition truediv (p : t) (s : string) : t :=
  let q := parse s in
  if String.eqb (root q) "" then
    {| root := root p; parts := parts p ++ parts q |}
  else q.

(** [p.parent] *)
Definition parent (p : t) : t :=
  {| root := root p; parts := removelast (parts p) |}.

(** [str(p)] *)
Definition str (p : t) : string :=
  match root p, parts p with
  | EmptyString, [] => "."
  | r, ps => r +:+ PyStr.join "/" ps
  end.

End PurePosixPath.

(** ** Exceptions *)

(** The classes the [except] clauses of [render_diagram] tell apart.
    [IndentationError] and [TabError] derive from [SyntaxError],
    [ModuleNotFoundError] from [ImportError]; [SystemExit],
    [KeyboardInterrupt] and [GeneratorExit] derive from [BaseException]
    only; [OtherException] stands for every other class below
    [Exception]. *)
Inductive exc_class : Type :=
| SyntaxError | IndentationError | TabError
| ImportError | ModuleNotFoundError
| OtherException (class_name : string)
| SystemExit | KeyboardInterrupt | GeneratorExit.

(** An exception raised while the submitted program is evaluated: its
    class and [str(e)]. *)
Record exn : Type := Exn { exn_class : exc_class; exn_str : string }.

Definition isinstance_SyntaxError (e : exn) : bool :=
  match exn_class e with
  | SyntaxError | IndentationError | TabError => true
  | _ => false
  end.

Definition isinstance_ImportError (e : exn) : bool :=
  match exn_class e with
  | ImportError | ModuleNotFoundError => true
  | _ => false
  end.

Definition isinstance_Exception (e : exn) : bool :=
  match exn_class e with
  | SystemExit | KeyboardInterrupt | GeneratorExit => false
  | _ => true
  end.

(** What can leave [call_tool] as an exception: one that escaped
    [render_diagram], or the [UnicodeDecodeError] of [bytes.decode]. *)
Inductive handler_exn : Type :=
| Propagated (e : exn)
| UnicodeDecodeError (start : nat).

(** ** Effects *)

(** The calls that reach outside the handler, in the order made. *)
Inductive Event : Type :=
| EvMkdtemp (tmpdir : string)
| EvChdir (dir : string)
| EvExec (code : string)
| EvGlob (dir pattern : string)
| EvRead (path : string)
| EvCleanup (tmpdir : string)
| EvExists (path : string)
| EvMkdir (path : string)
| EvWrite (path : string) (content : list byte).

Inductive result (E A : Type) : Type :=
| Return (a : A)
| Raise (e : E).
Arguments Return {E A} a.
Arguments Raise {E A} e.

(** A computation: the events it performed and how it ended. *)
Definition Eff (E A : Type) : Type := (list Event * result E A)%type.

Definition ret {E A} (a : A) : Eff E A := ([], Return a).

Definition raise {E A} (e : E) : Eff E A := ([], Raise e).

Definition emit {E} (ev : Event) : Eff E unit := ([ev], Return tt).

Definition bind {E A B} (m : Eff E A) (k : A -> Eff E B) : Eff E B :=
  match m with
  | (log, Return a) => let '(log', r) := k a in (log ++ log', r)
  | (log, Raise e) => (log, Raise e)
  end.

Notation "x <- m ;; k" := (bind m (fun x => k))
  (at level 100, m at next level, right associativity).
Notation "m ;;; k" := (bind m (fun _ => k))
  (at level 100, right associativity).

(** [try: m except ...: h]: [h e] is [None] when no clause matches [e]. *)
Definition try_except {E A} (m : Eff E A) (h : E -> option (Eff E A)) : Eff E A :=
  match m with
  | (log, Raise e) =>
      match h e with
      | Some k => let '(log', r) := k in (log ++ log', r)
      | None => (log, Raise e)
      end
  | done => done
  end.

(** Exceptions of [render_diagram] seen from [call_tool]. *)
Definition lift {A} (m : Eff exn A) : Eff handler_exn A :=
  match m with
  | (log, Return a) => (log, Return a)
  | (log, Raise e) => (log, Raise (Propagated e))
  end.

(** ** The world outside the handler *)

(** An entry of the working directory, as [open(f, "rb")] followed by
    [fp.read()] finds it: a regular file that can be read, with its
    bytes, or an entry on which [open] or [read] raises (a directory, a
    dangling symbolic link, a file without read permission), with the
    class of that error, a subclass of [OSError], and its [str]. *)
Inductive DirEntry : Type :=
| RegularFile (content : list byte)
| Unreadable (class_name message : string).

(** What evaluating a program does: it raises, or it completes and
    leaves entries (name, kind) in the working directory, listed in the
    order the directory yields them. *)
Inductive exec_result : Type :=
| Completed (entries : list (string * DirEntry))
| Raised (e : exn).

Record World : Type := {
  (** the directory [tempfile.TemporaryDirectory()] hands out *)
  tmpdir_name : string;
  (** the effect of [exec(code, exec_globals)] in that directory *)
  exec_outcome : string -> exec_result;
  (** [Path("/output").exists()] *)
  output_dir_exists : bool
}.

(** [with tempfile.TemporaryDirectory() as tmpdir: body]: the directory
    is removed however [body] ends. *)
Definition with_TemporaryDirectory {E A} (w : World) (body : string -> Eff E A) : Eff E A :=
  let tmpdir := tmpdir_name w in
  let '(log, r) := body tmpdir in
  (EvMkdtemp tmpdir :: log ++ [EvCleanup tmpdir], r).

(** [exec(code, exec_globals)], returning the entries left behind. *)
Definition exec (w : World) (code : string) : Eff exn (list (string * DirEntry)) :=
  match exec_outcome w code with
  | Completed entries => ([EvExec code], Return entries)
  | Raised e => ([EvExec code], Raise e)
  end.

(** [Path(tmpdir).glob("*" + ext)] for an extension without glob
    metacharacters: the entries whose name ends with [ext], of whatever
    kind, in directory order. *)
Definition glob_star (ext : string) (entries : list (string * DirEntry))
  : list (string * DirEntry) :=
  List.filter (fun f => PyStr.endswith (fst f) ext) entries.

(** ** server.py *)

Inductive Content : Type :=
| TextContent (text : string)
| ImageContent (data mimeType : string).

(** The dict returned by [render_diagram]. *)
Inductive RenderResult : Type :=
| Success (filename : string) (content : list byte) (mime_type : string)
| Failure (error : string).

Definition get_mime_type (ext : string) : string :=
  if String.eqb ext ".png" then "image/png"
  else if String.eqb ext ".svg" then "image/svg+xml"
  else if String.eqb ext ".pdf" then "application/pdf"
  else "application/octet-stream".

Definition no_diagram_error : string :=
  "No diagram file was generated. Ensure your code creates a Diagram with show=False.".

(** Lines 162-163: [with open(f, "rb") as fp: content = fp.read()].  An
    [OSError] is below [Exception] and is neither a [SyntaxError] nor an
    [ImportError]. *)
Definition open_read (tmpdir : string) (f : string * DirEntry) : Eff exn (list byte) :=
  emit (EvRead (tmpdir +:+ "/" +:+ fst f)) ;;;
  match snd f with
  | RegularFile content => ret content
  | Unreadable class_name message => raise (Exn (OtherException class_name) message)
  end.

(** The loop [for ext in [...]: for f in Path(tmpdir).glob(...)]: the
    first entry the glob yields is opened, and the loop is left with it,
    by [return] or by the error of [open]. *)
Fixpoint find_generated (tmpdir : string) (entries : list (string * DirEntry))
  (exts : list string) : Eff exn RenderResult :=
  match exts with
  | [] => ret (Failure no_diagram_error)
  | ext :: exts' =>
      emit (EvGlob tmpdir ("*" +:+ ext)) ;;;
      match glob_star ext entries with
      | f :: _ =>
          content <- open_read tmpdir f ;;
          ret (Success (fst f) content (get_mime_type ext))
      | [] => find_generated tmpdir entries exts'
      end
  end.

Definition search_order (output_format : string) : list string :=
  ["." +:+ output_format; ".png"; ".svg"; ".pdf"].

(** The three [except] clauses, tried in order. *)
Definition except_clauses (e : exn) : option (Eff exn RenderResult) :=
  if isinstance_SyntaxError e then
    Some (ret (Failure ("Python syntax error: " +:+ exn_str e)))
  else if isinstance_ImportError e then
    Some (ret (Failure ("Import error: " +:+ exn_str e)))
  else if isinstance_Exception e then
    Some (ret (Failure (exn_str e)))
  else None.

Definition render_diagram (w : World) (code output_format : string) : Eff exn RenderResult :=
  try_except
    (with_TemporaryDirectory w (fun tmpdir =>
       emit (EvChdir tmpdir) ;;;
       entries <- exec w code ;;
       find_generated tmpdir entries (search_order output_format)))
    except_clauses.

(** An entry of the [PROVIDERS] table. *)
Record Provider : Type := {
  provider_name : string;
  provider_modules : list string;
  provider_example : string
}.

Definition nl : string := String (ascii_of_nat 10) EmptyString.

Definition import_missing_error : string :=
  "Error: Code must import from the diagrams library".

Definition not_mounted_error : string :=
  "Error: /output directory not mounted. Use: docker run -v /your/path:/output ...".

(** [Path("/output").exists()] *)
Definition path_exists {E} (w : World) (p : PurePosixPath.t) : Eff E bool :=
  emit (EvExists (PurePosixPath.str p)) ;;;
  ret (output_dir_exists w).

(** Lines 293-295: the extension is appended unless already there. *)
Definition with_extension (output_path output_format : string) : string :=
  if negb (PyStr.endswith output_path ("." +:+ output_format))
  then output_path +:+ "." +:+ output_format
  else output_path.

(** Lines 315-323: the item that carries the artifact. *)
Definition artifact_item (output_format : string) (content : list byte)
  (mime_type : string) : Eff handler_exn Content :=
  let content_b64 := PyBytes.b64encode content in
  if String.eqb output_format "svg" then
    match PyBytes.decode content with
    | inl text => ret (TextContent text)
    | inr start => raise (UnicodeDecodeError start)
    end
  else ret (ImageContent content_b64 mime_type).

(** Lines 307-325: the content list, once [saved_path] is settled. *)
Definition build_contents (saved_path : option string) (output_format : string)
  (content : list byte) (mime_type : string) : Eff handler_exn (list Content) :=
  let contents := [] in
  let contents :=
    if PyStr.truthy saved_path
    then contents ++ [TextContent ("Saved to: " +:+ default EmptyString saved_path)]
    else contents in
  item <- artifact_item output_format content mime_type ;;
  ret (contents ++ [item]).

(** The [diagrams_render] branch of [call_tool]. *)
Definition diagrams_render (w : World) (arguments : gmap string string)
  : Eff handler_exn (list Content) :=
  let code := default EmptyString (arguments !! "code") in
  let output_format := default "png" (arguments !! "format") in
  let output_path := arguments !! "output_path" in
  if negb (PyStr.contains "from diagrams" code)
     && negb (PyStr.contains "import diagrams" code)
  then ret [TextContent import_missing_error]
  else
    result <- lift (render_diagram w code output_format) ;;
    match result with
    | Failure error => ret [TextContent ("Error: " +:+ error)]
    | Success _ content mime_type =>
        if PyStr.truthy output_path then
          let output_path := default EmptyString output_path in
          let output_dir := PurePosixPath.parse "/output" in
          found <- path_exists w output_dir ;;
          if (found : bool) then
            let output_path := with_extension output_path output_format in
            let full_path := PurePosixPath.truediv output_dir output_path in
            emit (EvMkdir (PurePosixPath.str (PurePosixPath.parent full_path))) ;;;
            emit (EvWrite (PurePosixPath.str full_path) content) ;;;
            build_contents (Some (PurePosixPath.str full_path))
              output_format content mime_type
          else ret [TextContent not_mounted_error]
        else build_contents None output_format content mime_type
    end.

Section Catalog.

(** The two module-level tables; [PROVIDERS] keeps the insertion order of
    the dict. *)
Variable OVERVIEW : string.
Variable PROVIDERS : list (string * Provider).

Definition PROVIDERS_get (category : string) : option Provider :=
  snd <$> List.find (fun kv => String.eqb (fst kv) category) PROVIDERS.

Definition provider_document (category : string) (provider : Provider) : string :=
  "# " +:+ provider_name provider +:+ nl +:+ nl +:+
  "## Available Modules" +:+ nl +:+ nl +:+
  "```" +:+ nl +:+
  "from diagrams." +:+ category +:+ ".<module> import <Node>" +:+ nl +:+
  "```" +:+ nl +:+ nl +:+
  "Modules: " +:+ PyStr.join ", " (provider_modules provider) +:+ nl +:+ nl +:+
  "## Example" +:+ nl +:+ nl +:+
  "```python" +:+ nl +:+
  provider_example provider +:+ nl +:+
  "```" +:+ nl +:+ nl +:+
  "## References" +:+ nl +:+ nl +:+
  "- Nodes list: https://diagrams.mingrammer.com/docs/nodes/" +:+ category +:+ nl.

(** The [diagrams_describe] branch of [call_tool]. *)
Definition diagrams_describe (arguments : gmap string string) : list Content :=
  let category := arguments !! "category" in
  if negb (PyStr.truthy category) then [TextContent OVERVIEW]
  else
    let category := default EmptyString category in
    match PROVIDERS_get category with
    | None =>
        let available := PyStr.join ", " (List.map fst PROVIDERS) in
        [TextContent ("Unknown category: " +:+ category +:+ nl +:+ nl +:+
                      "Available: " +:+ available)]
    | Some provider => [TextContent (provider_document category provider)]
    end.

Definition call_tool (w : World) (name : string) (arguments : gmap string string)
  : Eff handler_exn (list Content) :=
  if String.eqb name "diagrams_describe" then ret (diagrams_describe arguments)
  else if String.eqb name "diagrams_render" then diagrams_render w arguments
  else ret [TextContent ("Unknown tool: " +:+ name)].

End Catalog.

(** ** Vocabulary of the properties *)

(** [f] is the first entry, in directory order, whose name ends with
    [ext]. *)
Definition first_match (ext : string) (entries : list (string * DirEntry))
  (f : string * DirEntry) : Prop :=
  exists before after,
    entries = before ++ f :: after
    /\ PyStr.endswith (fst f) ext = true
    /\ (forall g, In g before -> PyStr.endswith (fst g) ext = false).

(** No entry has a name ending with [ext]. *)
Definition no_match (ext : string) (entries : list (string * DirEntry)) : Prop :=
  forall g, In g entries -> PyStr.endswith (fst g) ext = false.

(** The formats the tool schema lists. *)
Definition supported (output_format : string) : Prop :=
  In output_format ["png"; "svg"; "pdf"].

Definition known_extensions : list string := [".png"; ".svg"; ".pdf"].

(** The validation of line 277 lets the code through. *)
Definition has_import (code : string) : bool :=
  PyStr.contains "from diagrams" code || PyStr.contains "import diagrams" code.

(** Events that create a directory or write a file. *)
Definition writes (ev : Event) : bool :=
  match ev with
  | EvMkdir _ | EvWrite _ _ => true
  | _ => false
  end.

(** No path separator occurs in [s]. *)
Fixpoint no_slash (s : string) : bool :=
  match s with
  | EmptyString => true
  | String a s' => negb (Ascii.eqb a "/") && no_slash s'
  end.

(** The items that precede the artifact item. *)
Definition saved_items (saved_path : option string) : list Content :=
  if PyStr.truthy saved_path
  then [TextContent ("Saved to: " +:+ default EmptyString saved_path)]
  else [].

(** The path line 296 builds for the arguments of a call. *)
Definition full_path (arguments : gmap string string) : PurePosixPath.t :=
  PurePosixPath.truediv (PurePosixPath.parse "/output")
    (with_extension (default EmptyString (arguments !! "output_path"))
       (default "png" (arguments !! "format"))).


(** ** Sample requests *)

Module Sample.

(** A program that draws with the library's default output format. *)
Definition prog_diagram : string :=
  "from diagrams import Diagram" +:+ nl +:+
  "with Diagram('Web Service', show=False): pass".

(** A program that asks the library for two output files. *)
Definition prog_two_formats : string :=
  "from diagrams import Diagram" +:+ nl +:+
  "with Diagram('arch', show=False, outformat=['svg', 'png']): pass".

Definition prog_exit : string :=
  "import diagrams, sys" +:+ nl +:+ "sys.exit(1)".

Definition prog_syntax : string :=
  "import diagrams" +:+ nl +:+ "raise SyntaxError('boom')".

Definition prog_generic : string :=
  "import diagrams" +:+ nl +:+ "raise Exception('Python syntax error: boom')".

Definition prog_missing_module : string :=
  "import diagrams" +:+ nl +:+ "import nosuchmodule".

Definition prog_no_import : string := "print(1)".

(** A program that leaves a directory named like an image beside a file. *)
Definition prog_directory : string :=
  "import diagrams, os" +:+ nl +:+
  "os.mkdir('out.png')" +:+ nl +:+
  "open('b.svg', 'w').write('<svg/>')".

(** The directory [out.png], on which [open] raises [IsADirectoryError]. *)
Definition out_png_directory : string * DirEntry :=
  ("out.png",
   Unreadable "IsADirectoryError"
     "[Errno 21] Is a directory: '/tmp/tmpk3v9x2ab/out.png'").

(** The eight-byte PNG signature. *)
Definition png_bytes : list byte := [x89; x50; x4e; x47; x0d; x0a; x1a; x0a].

Definition svg_bytes : list byte := list_byte_of_string "<svg/>".

(** What evaluating each sample program does. *)
Definition evaluate (code : string) : exec_result :=
  if String.eqb code prog_diagram then
    Completed [("web_service.png", RegularFile png_bytes)]
  else if String.eqb code prog_two_formats then
    Completed [("arch.svg", RegularFile svg_bytes); ("arch.png", RegularFile png_bytes)]
  else if String.eqb code prog_directory then
    Completed [out_png_directory; ("b.svg", RegularFile svg_bytes)]
  else if String.eqb code prog_exit then
    Raised (Exn SystemExit "1")
  else if String.eqb code prog_syntax then
    Raised (Exn SyntaxError "boom")
  else if String.eqb code prog_generic then
    Raised (Exn (OtherException "Exception") "Python syntax error: boom")
  else if String.eqb code prog_missing_module then
    Raised (Exn ModuleNotFoundError "No module named 'nosuchmodule'")
  else Completed [].

Definition world (mounted : bool) : World :=
  {| tmpdir_name := "/tmp/tmpk3v9x2ab";
     exec_outcome := evaluate;
     output_dir_exists := mounted |}.

(** [{"code": code, "format": fmt, "output_path": path}] *)
Definition request (code fmt path : string) : gmap string string :=
  <["code" := code]> (<["format" := fmt]> (<["output_path" := path]> ∅)).

(** [{"code": code, "format": fmt}] *)
Definition request_inline (code fmt : string) : gmap string string :=
  <["code" := code]> (<["format" := fmt]> ∅).

End Sample.

(** ** The tool listing *)

Local Unset Elimination Schemes.

(** JSON values, as far as the input schemas of [list_tools] use them. *)
Inductive json : Type :=
| JString (s : string)
| JArray (items : list json)
| JObject (fields : list (string * json)).

Local Set Elimination Schemes.

(** [mcp.types.Tool], with the three fields [list_tools] sets. *)
Record Tool : Type := {
  tool_name : string;
  tool_description : string;
  inputSchema : json
}.

Section Listing.

Variable PROVIDERS : list (string * Provider).

Definition list_tools : list Tool :=
  [ {| tool_name := "diagrams_describe";
       tool_description :=
         "Get Python diagrams library guidelines. Without arguments: overview. With category: provider-specific guidelines.";
       inputSchema :=
         JObject
           [("type", JString "object");
            ("properties",
             JObject
               [("category",
                 JObject
                   [("type", JString "string");
                    ("enum", JArray (List.map JString (List.map fst PROVIDERS)));
                    ("description",
                     JString "Provider category (aws, gcp, k8s, onprem, etc.)")])])] |};
    {| tool_name := "diagrams_render";
       tool_description :=
         "Render a diagram using Python diagrams library. Returns PNG (default), SVG, or PDF. Optionally saves to file.";
       inputSchema :=
         JObject
           [("type", JString "object");
            ("properties",
             JObject
               [("code",
                 JObject
                   [("type", JString "string");
                    ("description",
                     JString "Python source code using the diagrams library")]);
                ("format",
                 JObject
                   [("type", JString "string");
                    ("enum", JArray [JString "png"; JString "svg"; JString "pdf"]);
                    ("description", JString "Output format (default: png)")]);
                ("output_path",
                 JObject
                   [("type", JString "string");
                    ("description",
                     JString "Optional file path to save the output (relative to mounted /output directory)")])]);
            ("required", JArray [JString "code"])] |} ].

End Listing.

(** [j[key]] for a JSON object. *)
Definition json_field (key : string) (j : json) : option json :=
  match j with
  | JObject fields =>
      snd <$> List.find (fun kv => String.eqb (fst kv) key) fields
  | _ => None
  end.

(** The strings of a JSON array of strings. *)
Definition json_strings (j : json) : list string :=
  match j with
  | JArray items =>
      List.flat_map (fun i => match i with JString s => [s] | _ => [] end) items
  | _ => []
  end.

(** The [enum] a tool's schema gives for one of its properties. *)
Definition schema_enum (t : Tool) (property : string) : list string :=
  match json_field "properties" (inputSchema t) with
  | Some properties =>
      match json_field property properties with
      | Some p =>
          match json_field "enum" p with
          | Some values => json_strings values
          | None => []
          end
      | None => []
      end
  | None => []
  end.

(** The tool of a listing that carries a given name. *)
Definition find_tool (name : string) (tools : list Tool) : option Tool :=
  List.find (fun t => String.eqb (tool_name t) name) tools.

(** No glob metacharacter and no path separator occurs in [s]: for such an
    extension [glob_star] is what [Path.glob] computes. *)
Fixpoint glob_literal (s : string) : bool :=
  match s with
  | EmptyString => true
  | String a s' =>
      negb (Ascii.eqb a "*") && negb (Ascii.eqb a "?")
      && negb (Ascii.eqb a "[") && negb (Ascii.eqb a "/")
      && glob_literal s'
  end.

(** A one-character string occurs in the base64 alphabet or is the pad. *)
Definition b64_char (c : ascii) : bool :=
  PyStr.contains (String c EmptyString) (PyBytes.b64_alphabet +:+ "=").

(** ** The module-level tables *)

(** The double quote, which the string literals below leave out. *)
Definition dq : string := String (ascii_of_nat 34) EmptyString.

(** The module-level [OVERVIEW] text (lines 20-75). *)
Definition OVERVIEW : string :=
  "# Python Diagrams Library" +:+ nl +:+
  nl +:+
  "The **diagrams** library lets you draw cloud system architecture diagrams using Python code." +:+ nl +:+
  nl +:+
  "## Basic Structure" +:+ nl +:+
  nl +:+
  "```python" +:+ nl +:+
  "from diagrams import Diagram, Cluster, Edge" +:+ nl +:+
  "from diagrams.aws.compute import EC2" +:+ nl +:+
  "from diagrams.aws.network import ELB" +:+ nl +:+
  nl +:+
  "with Diagram(" +:+ dq +:+ "Web Service" +:+ dq +:+ ", show=False):" +:+ nl +:+
  "    ELB(" +:+ dq +:+ "lb" +:+ dq +:+ ") >> EC2(" +:+ dq +:+ "web" +:+ dq +:+ ")" +:+ nl +:+
  "```" +:+ nl +:+
  nl +:+
  "## Key Concepts" +:+ nl +:+
  nl +:+
  "- **Diagram**: Container for the entire diagram. Use `show=False` to prevent auto-opening." +:+ nl +:+
  "- **Cluster**: Group nodes visually with a box." +:+ nl +:+
  "- **Edge**: Customize connections (color, style, label)." +:+ nl +:+
  "- **Nodes**: Cloud provider resources (EC2, Lambda, etc.)" +:+ nl +:+
  nl +:+
  "## Connection Operators" +:+ nl +:+
  nl +:+
  "- `>>`: Left to right flow" +:+ nl +:+
  "- `<<`: Right to left flow" +:+ nl +:+
  "- `-`: Bidirectional / no direction" +:+ nl +:+
  nl +:+
  "## Output Formats" +:+ nl +:+
  nl +:+
  "- **PNG** (default): Best for sharing and embedding" +:+ nl +:+
  "- **SVG**: Scalable, good for documentation" +:+ nl +:+
  "- **PDF**: Print-ready format" +:+ nl +:+
  nl +:+
  "## Available Providers" +:+ nl +:+
  nl +:+
  "| Provider | Description |" +:+ nl +:+
  "|----------|-------------|" +:+ nl +:+
  "| aws | Amazon Web Services |" +:+ nl +:+
  "| azure | Microsoft Azure |" +:+ nl +:+
  "| gcp | Google Cloud Platform |" +:+ nl +:+
  "| k8s | Kubernetes |" +:+ nl +:+
  "| onprem | On-premises / Self-hosted |" +:+ nl +:+
  "| generic | Generic architecture icons |" +:+ nl +:+
  "| programming | Programming languages & frameworks |" +:+ nl +:+
  "| saas | SaaS products |" +:+ nl +:+
  "| firebase | Firebase services |" +:+ nl +:+
  "| elastic | Elastic Stack |" +:+ nl +:+
  nl +:+
  "Use `diagrams_describe(category: " +:+ dq +:+ "aws" +:+ dq +:+ ")` to get provider-specific guidelines." +:+ nl +:+
  nl +:+
  "## References" +:+ nl +:+
  nl +:+
  "- Documentation: https://diagrams.mingrammer.com/" +:+ nl +:+
  "- GitHub: https://github.com/mingrammer/diagrams" +:+ nl.

(** The module-level [PROVIDERS] dict (lines 77-134), in insertion order. *)
Definition PROVIDERS : list (string * Provider) :=
  [
  ("aws",
   {| provider_name := "Amazon Web Services";
      provider_modules := ["analytics"; "compute"; "database"; "network"; "storage"; "security"; "ml"; "integration"];
      provider_example :=
        "from diagrams import Diagram, Cluster" +:+ nl +:+
        "from diagrams.aws.compute import EC2, ECS" +:+ nl +:+
        "from diagrams.aws.database import RDS" +:+ nl +:+
        "from diagrams.aws.network import ELB" +:+ nl +:+
        nl +:+
        "with Diagram(" +:+ dq +:+ "AWS Architecture" +:+ dq +:+ ", show=False):" +:+ nl +:+
        "    lb = ELB(" +:+ dq +:+ "lb" +:+ dq +:+ ")" +:+ nl +:+
        "    with Cluster(" +:+ dq +:+ "Web Tier" +:+ dq +:+ "):" +:+ nl +:+
        "        web = [EC2(" +:+ dq +:+ "web1" +:+ dq +:+ "), EC2(" +:+ dq +:+ "web2" +:+ dq +:+ ")]" +:+ nl +:+
        "    db = RDS(" +:+ dq +:+ "db" +:+ dq +:+ ")" +:+ nl +:+
        "    lb >> web >> db" |});
  ("gcp",
   {| provider_name := "Google Cloud Platform";
      provider_modules := ["compute"; "database"; "network"; "storage"; "ml"; "analytics"];
      provider_example :=
        "from diagrams import Diagram, Cluster" +:+ nl +:+
        "from diagrams.gcp.compute import GCE, GKE" +:+ nl +:+
        "from diagrams.gcp.database import SQL" +:+ nl +:+
        nl +:+
        "with Diagram(" +:+ dq +:+ "GCP Architecture" +:+ dq +:+ ", show=False):" +:+ nl +:+
        "    gke = GKE(" +:+ dq +:+ "gke" +:+ dq +:+ ")" +:+ nl +:+
        "    sql = SQL(" +:+ dq +:+ "cloudsql" +:+ dq +:+ ")" +:+ nl +:+
        "    gke >> sql" |});
  ("k8s",
   {| provider_name := "Kubernetes";
      provider_modules := ["compute"; "network"; "storage"; "controlplane"; "rbac"];
      provider_example :=
        "from diagrams import Diagram, Cluster" +:+ nl +:+
        "from diagrams.k8s.compute import Pod, Deployment" +:+ nl +:+
        "from diagrams.k8s.network import Service, Ingress" +:+ nl +:+
        nl +:+
        "with Diagram(" +:+ dq +:+ "K8s Architecture" +:+ dq +:+ ", show=False):" +:+ nl +:+
        "    ingress = Ingress(" +:+ dq +:+ "ingress" +:+ dq +:+ ")" +:+ nl +:+
        "    svc = Service(" +:+ dq +:+ "service" +:+ dq +:+ ")" +:+ nl +:+
        "    with Cluster(" +:+ dq +:+ "Deployment" +:+ dq +:+ "):" +:+ nl +:+
        "        pods = [Pod(" +:+ dq +:+ "pod1" +:+ dq +:+ "), Pod(" +:+ dq +:+ "pod2" +:+ dq +:+ ")]" +:+ nl +:+
        "    ingress >> svc >> pods" |});
  ("onprem",
   {| provider_name := "On-Premises";
      provider_modules := ["compute"; "database"; "network"; "monitoring"; "container"; "queue"];
      provider_example :=
        "from diagrams import Diagram, Cluster" +:+ nl +:+
        "from diagrams.onprem.compute import Server" +:+ nl +:+
        "from diagrams.onprem.database import PostgreSQL" +:+ nl +:+
        "from diagrams.onprem.network import Nginx" +:+ nl +:+
        nl +:+
        "with Diagram(" +:+ dq +:+ "On-Prem Architecture" +:+ dq +:+ ", show=False):" +:+ nl +:+
        "    nginx = Nginx(" +:+ dq +:+ "nginx" +:+ dq +:+ ")" +:+ nl +:+
        "    with Cluster(" +:+ dq +:+ "App Servers" +:+ dq +:+ "):" +:+ nl +:+
        "        apps = [Server(" +:+ dq +:+ "app1" +:+ dq +:+ "), Server(" +:+ dq +:+ "app2" +:+ dq +:+ ")]" +:+ nl +:+
        "    db = PostgreSQL(" +:+ dq +:+ "postgres" +:+ dq +:+ ")" +:+ nl +:+
        "    nginx >> apps >> db" |})
  ].

(** ** Sample describe requests *)

(** [{"category": category}] *)
Definition describe_request (category : string) : gmap string string :=
  <["category" := category]> ∅.

(** The first entry of [PROVIDERS]. *)
Definition first_provider : Provider :=
  snd (List.hd (EmptyString, Build_Provider EmptyString [] EmptyString) PROVIDERS).

(** A world in which every program completes and leaves [entries]. *)
Definition world_leaving (entries : list (string * DirEntry)) (mounted : bool)
  : World :=
  {| tmpdir_name := "/tmp/tmpk3v9x2ab";
     exec_outcome := fun _ => Completed entries;
     output_dir_exists := mounted |}.

(** What [render_diagram] does between evaluating the code and leaving
    the temporary directory [d]: it globs [d] and reads files of [d]. *)
Definition searches (d : string) (ev : Event) : Prop :=
  match ev with
  | EvGlob dir _ => dir = d
  | EvRead path => exists name, path = d +:+ "/" +:+ name
  | _ => False
  end.

(** Events that concern the output root. *)
Definition touches_output (ev : Event) : bool :=
  match ev with
  | EvExists _ | EvMkdir _ | EvWrite _ _ => true
  | _ => false
  end.

(** * Properties *)

(** ** The runtime functions on samples *)

Example endswith_png : PyStr.endswith "diagram.png" ".png" = true.
Proof. reflexivity. Qed.

Example endswith_bare : PyStr.endswith "diagram" ".png" = false.
Proof. reflexivity. Qed.

Example contains_import :
  PyStr.contains "import diagrams" "import os; import diagrams" = true.
Proof. reflexivity. Qed.

Example split_path : PyStr.split "/" "a//b/./c" = ["a"; ""; "b"; "."; "c"].
Proof. reflexivity. Qed.

Example b64_foobar :
  PyBytes.b64encode (list_byte_of_string "foobar") = "Zm9vYmFy"
  /\ PyBytes.b64encode (list_byte_of_string "fooba") = "Zm9vYmE="
  /\ PyBytes.b64encode (list_byte_of_string "foob") = "Zm9vYg=="
  /\ PyBytes.b64encode [x89; x50; x4e; x47] = "iVBORw==".
Proof. repeat split; reflexivity. Qed.

Example utf8_samples :
  PyBytes.decode (list_byte_of_string "<svg/>") = inl "<svg/>"
  /\ PyBytes.decode [xc3; xa9] = inl (string_of_list_byte [xc3; xa9])
  /\ PyBytes.decode [x89; x50; x4e; x47] = inr 0
  /\ PyBytes.decode [x41; xc0; x80] = inr 1
  /\ PyBytes.decode [xed; xa0; x80] = inr 0
  /\ PyBytes.decode [x41; x42; xe2; x82] = inr 2.
Proof. repeat split; reflexivity. Qed.

Example path_samples :
  PurePosixPath.str (PurePosixPath.truediv (PurePosixPath.parse "/output") "diagram.png")
    = "/output/diagram.png"
  /\ PurePosixPath.str (PurePosixPath.truediv (PurePosixPath.parse "/output") "a//b/./c.svg")
    = "/output/a/b/c.svg"
  /\ PurePosixPath.str (PurePosixPath.truediv (PurePosixPath.parse "/output") "/etc/x.pdf")
    = "/etc/x.pdf"
  /\ PurePosixPath.str (PurePosixPath.parent
       (PurePosixPath.truediv (PurePosixPath.parse "/output") "a/b.png"))
    = "/output/a".
Proof. repeat split; reflexivity. Qed.

(** ** Strings *)

Lemma append_nil (t : string) : EmptyString +:+ t = t.
Proof. reflexivity. Qed.

Lemma append_cons (a : ascii) (s t : string) :
  String a s +:+ t = String a (s +:+ t).
Proof. reflexivity. Qed.

Lemma append_assoc (s t u : string) : (s +:+ t) +:+ u = s +:+ t +:+ u.
Proof.
  induction s as [|a s IH]; [reflexivity |].
  now rewrite !append_cons, IH.
Qed.

Lemma append_length (s t : string) :
  String.length (s +:+ t) = String.length s + String.length t.
Proof.
  induction s as [|a s IH]; [reflexivity |].
  rewrite append_cons. simpl. now rewrite IH.
Qed.

Lemma prefix_cons (c a : ascii) (s t : string) :
  String.prefix (String c s) (String a t)
  = if Ascii.ascii_dec c a then String.prefix s t else false.
Proof. reflexivity. Qed.

Lemma endswith_empty (suffix : string) :
  PyStr.endswith EmptyString suffix = String.eqb EmptyString suffix.
Proof. apply orb_false_r. Qed.

Lemma endswith_cons (a : ascii) (s suffix : string) :
  PyStr.endswith (String a s) suffix
  = String.eqb (String a s) suffix || PyStr.endswith s suffix.
Proof. reflexivity. Qed.

Lemma endswith_spec (s suffix : string) :
  PyStr.endswith s suffix = true <-> exists pre, s = pre +:+ suffix.
Proof.
  induction s as [|a s IH].
  - rewrite endswith_empty, String.eqb_eq. split.
    + intros <-. now exists EmptyString.
    + intros [[|b pre] H]; [now rewrite append_nil in H |].
      rewrite append_cons in H. discriminate.
  - rewrite endswith_cons, orb_true_iff, String.eqb_eq, IH. split.
    + intros [<- | [pre ->]].
      * now exists EmptyString.
      * now exists (String a pre).
    + intros [[|b pre] H].
      * left. now rewrite append_nil in H.
      * right. rewrite append_cons in H. injection H as _ ->. now exists pre.
Qed.

Lemma endswith_append (pre suffix : string) :
  PyStr.endswith (pre +:+ suffix) suffix = true.
Proof. apply endswith_spec. now exists pre. Qed.

(** ** The effect monad *)

Lemma bind_Return {E A B} (log : list Event) (a : A) (k : A -> Eff E B) :
  bind (log, Return a) k = (log ++ fst (k a), snd (k a)).
Proof. simpl. now destruct (k a). Qed.

(** ** The artifact search *)

Lemma glob_star_first (ext : string) (entries : list (string * DirEntry)) f :
  first_match ext entries f -> exists rest, glob_star ext entries = f :: rest.
Proof.
  intros (before & after & -> & Hf & Hb). unfold glob_star.
  induction before as [|g before IH]; simpl.
  - rewrite Hf. eauto.
  - rewrite (Hb g) by now left. apply IH. intros h Hh. apply Hb. now right.
Qed.

Lemma glob_star_none (ext : string) (entries : list (string * DirEntry)) :
  no_match ext entries <-> glob_star ext entries = [].
Proof.
  unfold no_match, glob_star. induction entries as [|g entries IH]; simpl.
  - split; [reflexivity | intros _ g []].
  - destruct (PyStr.endswith (fst g) ext) eqn:Hg; split.
    + intros H. specialize (H g (or_introl eq_refl)). congruence.
    + discriminate.
    + intros H. apply IH. intros h Hh. apply H. now right.
    + intros H h [<- | Hh]; [assumption | now apply IH].
Qed.

Lemma glob_star_head (ext : string) (entries : list (string * DirEntry)) f rest :
  glob_star ext entries = f :: rest -> first_match ext entries f.
Proof.
  unfold glob_star, first_match. induction entries as [|g entries IH]; simpl.
  - discriminate.
  - destruct (PyStr.endswith (fst g) ext) eqn:Hg.
    + intros [= -> _]. exists [], entries. repeat split; [assumption | intros ? []].
    + intros H. destruct (IH H) as (before & after & -> & Hf & Hb).
      exists (g :: before), after. repeat split; [assumption |].
      intros h [<- | Hh]; [assumption | now apply Hb].
Qed.

(** The way the loop ends when the first extension is [ext]. *)
Lemma find_generated_cons tmpdir entries ext exts :
  find_generated tmpdir entries (ext :: exts)
  = match glob_star ext entries with
    | f :: _ =>
        ([EvGlob tmpdir ("*" +:+ ext); EvRead (tmpdir +:+ "/" +:+ fst f)],
         match snd f with
         | RegularFile content => Return (Success (fst f) content (get_mime_type ext))
         | Unreadable class_name message =>
             Raise (Exn (OtherException class_name) message)
         end)
    | [] =>
        (EvGlob tmpdir ("*" +:+ ext) :: fst (find_generated tmpdir entries exts),
         snd (find_generated tmpdir entries exts))
    end.
Proof.
  cbn [find_generated]. destruct (glob_star ext entries) as [|f rest].
  - unfold emit. rewrite bind_Return. reflexivity.
  - unfold open_read, emit, ret, raise, bind. now destruct (snd f).
Qed.

(** The search raises nothing but the error of an [open]. *)
Lemma find_generated_raises tmpdir entries exts e :
  snd (find_generated tmpdir entries exts) = Raise e ->
  exists class_name message, e = Exn (OtherException class_name) message.
Proof.
  induction exts as [|ext exts IH].
  - discriminate.
  - rewrite find_generated_cons. destruct (glob_star ext entries) as [|f rest].
    + exact IH.
    + cbn [snd]. destruct (snd f) as [content | class_name message].
      * discriminate.
      * intros [= <-]. eauto.
Qed.

Lemma find_generated_hit tmpdir entries earlier ext later f :
  (forall e, In e earlier -> no_match e entries) ->
  first_match ext entries f ->
  snd (find_generated tmpdir entries (earlier ++ ext :: later))
  = match snd f with
    | RegularFile content => Return (Success (fst f) content (get_mime_type ext))
    | Unreadable class_name message =>
        Raise (Exn (OtherException class_name) message)
    end.
Proof.
  intros Hearlier Hf. induction earlier as [|e earlier IH].
  - cbn [app]. rewrite find_generated_cons.
    destruct (glob_star_first _ _ _ Hf) as [rest ->]. reflexivity.
  - cbn [app]. rewrite find_generated_cons.
    assert (He : glob_star e entries = [])
      by (apply glob_star_none, Hearlier; now left).
    rewrite He. cbn [snd]. apply IH. intros e' He'. apply Hearlier. now right.
Qed.

Lemma find_generated_miss tmpdir entries exts :
  (forall e, In e exts -> no_match e entries) ->
  snd (find_generated tmpdir entries exts) = Return (Failure no_diagram_error).
Proof.
  intros Hall. induction exts as [|e exts IH].
  - reflexivity.
  - rewrite find_generated_cons.
    assert (He : glob_star e entries = [])
      by (apply glob_star_none, Hall; now left).
    rewrite He. cbn [snd]. apply IH. intros e' He'. apply Hall. now right.
Qed.

(** However the search ends, an entry decided it, or none matched. *)
Lemma search_decided (entries : list (string * DirEntry)) (exts : list string) :
  (forall e, In e exts -> no_match e entries)
  \/ (exists earlier ext later f,
        exts = earlier ++ ext :: later
        /\ (forall e, In e earlier -> no_match e entries)
        /\ first_match ext entries f).
Proof.
  induction exts as [|e exts IH].
  - left. intros e [].
  - destruct (glob_star e entries) as [|f rest] eqn:Hg.
    + apply glob_star_none in Hg.
      destruct IH as [Hall | (earlier & ext & later & f & -> & Hearlier & Hf)].
      * left. intros e' [<- | He']; [exact Hg | now apply Hall].
      * right. exists (e :: earlier), ext, later, f.
        split; [reflexivity |]. split; [| exact Hf].
        intros e' [<- | He']; [exact Hg | now apply Hearlier].
    + right. exists [], e, exts, f. split; [reflexivity |].
      split; [intros e' [] |]. exact (glob_star_head _ _ _ _ Hg).
Qed.

(** A hit comes from one of the searched extensions, and carries the
    name and bytes of a readable file of the directory. *)
Lemma find_generated_Success tmpdir entries exts filename content mime :
  snd (find_generated tmpdir entries exts) = Return (Success filename content mime) ->
  exists ext, In ext exts /\ first_match ext entries (filename, RegularFile content)
              /\ mime = get_mime_type ext.
Proof.
  induction exts as [|e exts IH].
  - discriminate.
  - rewrite find_generated_cons.
    destruct (glob_star e entries) as [|f rest] eqn:Hg.
    + cbn [snd]. intros H. destruct (IH H) as (ext & Hin & Hf & Hm).
      exists ext. split; [now right | auto].
    + cbn [snd]. apply glob_star_head in Hg. destruct f as [name kind].
      cbn [fst snd]. destruct kind as [bytes | class_name message].
      * intros [= <- <- <-]. exists e. split; [now left |]. now split.
      * discriminate.
Qed.

(** ** [render_diagram] *)

(** After a completed evaluation the render ends as the search does, an
    error of [open] being caught by the last [except] clause. *)
Lemma render_diagram_completed w code output_format entries :
  exec_outcome w code = Completed entries ->
  render_diagram w code output_format
  = (EvMkdtemp (tmpdir_name w)
       :: (EvChdir (tmpdir_name w) :: EvExec code
             :: fst (find_generated (tmpdir_name w) entries (search_order output_format)))
       ++ [EvCleanup (tmpdir_name w)],
     match snd (find_generated (tmpdir_name w) entries (search_order output_format)) with
     | Return r => Return r
     | Raise e => Return (Failure (exn_str e))
     end).
Proof.
  intros Hexec. unfold render_diagram, with_TemporaryDirectory, exec.
  rewrite Hexec.
  pose proof (find_generated_raises (tmpdir_name w) entries (search_order output_format))
    as Hraises.
  destruct (find_generated (tmpdir_name w) entries (search_order output_format))
    as [log [r | e]] eqn:Hfind; unfold bind, emit; rewrite Hfind.
  - reflexivity.
  - destruct (Hraises e eq_refl) as (class_name & message & ->).
    cbn. now rewrite app_nil_r.
Qed.

Lemma render_diagram_raised w code output_format e :
  exec_outcome w code = Raised e ->
  render_diagram w code output_format
  = ([EvMkdtemp (tmpdir_name w); EvChdir (tmpdir_name w); EvExec code;
      EvCleanup (tmpdir_name w)],
     if isinstance_SyntaxError e
     then Return (Failure ("Python syntax error: " +:+ exn_str e))
     else if isinstance_ImportError e
     then Return (Failure ("Import error: " +:+ exn_str e))
     else if isinstance_Exception e
     then Return (Failure (exn_str e))
     else Raise e).
Proof.
  intros Hexec. unfold render_diagram, with_TemporaryDirectory, exec, except_clauses.
  rewrite Hexec. simpl.
  destruct (isinstance_SyntaxError e); [reflexivity |].
  destruct (isinstance_ImportError e); [reflexivity |].
  destruct (isinstance_Exception e); reflexivity.
Qed.

(** After a completed evaluation the entry that decides the search
    decides the render. *)
Lemma render_diagram_hit w code output_format entries earlier ext later f :
  exec_outcome w code = Completed entries ->
  search_order output_format = earlier ++ ext :: later ->
  (forall e, In e earlier -> no_match e entries) ->
  first_match ext entries f ->
  snd (render_diagram w code output_format)
  = Return (match snd f with
            | RegularFile content => Success (fst f) content (get_mime_type ext)
            | Unreadable _ message => Failure message
            end).
Proof.
  intros Hexec Horder Hearlier Hf.
  rewrite (render_diagram_completed _ _ _ _ Hexec). cbn [snd].
  rewrite Horder, (find_generated_hit _ _ _ _ _ _ Hearlier Hf).
  now destruct (snd f).
Qed.

Lemma render_diagram_miss w code output_format entries :
  exec_outcome w code = Completed entries ->
  (forall e, In e (search_order output_format) -> no_match e entries) ->
  snd (render_diagram w code output_format) = Return (Failure no_diagram_error).
Proof.
  intros Hexec Hall. rewrite (render_diagram_completed _ _ _ _ Hexec). cbn [snd].
  now rewrite (find_generated_miss _ _ _ Hall).
Qed.

Lemma search_order_known output_format ext :
  supported output_format -> In ext (search_order output_format) ->
  In ext known_extensions.
Proof.
  unfold supported, search_order, known_extensions. simpl.
  intros [<- | [<- | [<- | []]]] [<- | [<- | [<- | [<- | []]]]]; simpl; tauto.
Qed.

(** C1, as amended. When evaluation completes, the working directory is
    searched with the extensions in the order requested format, [.png],
    [.svg], [.pdf], and the first entry, in directory order, of the
    first extension that has one decides.  A regular file that can be
    read makes the render succeed with its name, its bytes and the MIME
    type of that extension; an entry that cannot be opened or read (a
    directory, a dangling link, a file without read permission) makes it
    fail with the text of that error, whatever else the directory
    holds.  The render fails with the no-diagram diagnostic when no
    entry of any kind has a known extension.  It never raises. *)
Theorem C1_artifact_search (w : World) (code output_format : string)
  (entries : list (string * DirEntry)) :
  supported output_format ->
  exec_outcome w code = Completed entries ->
  (exists r, snd (render_diagram w code output_format) = Return r)
  /\ (forall earlier ext later f,
        ["." +:+ output_format; ".png"; ".svg"; ".pdf"] = earlier ++ ext :: later ->
        (forall e, In e earlier -> no_match e entries) ->
        first_match ext entries f ->
        snd (render_diagram w code output_format)
        = Return (match snd f with
                  | RegularFile content => Success (fst f) content (get_mime_type ext)
                  | Unreadable _ message => Failure message
                  end))
  /\ ((forall e, In e [".png"; ".svg"; ".pdf"] -> no_match e entries) ->
      snd (render_diagram w code output_format)
      = Return (Failure
          "No diagram file was generated. Ensure your code creates a Diagram with show=False.")).
Proof.
  intros Hfmt Hexec. split; [| split].
  - rewrite (render_diagram_completed _ _ _ _ Hexec). cbn [snd].
    destruct (snd (find_generated _ _ _)); eauto.
  - intros earlier ext later f Horder Hearlier Hf.
    now apply (render_diagram_hit _ _ _ _ _ _ _ _ Hexec Horder).
  - intros Hnone. apply (render_diagram_miss _ _ _ _ Hexec).
    intros e He. apply Hnone. exact (search_order_known _ _ Hfmt He).
Qed.

(** ** [call_tool] *)

Lemma call_tool_render OVERVIEW PROVIDERS w arguments :
  call_tool OVERVIEW PROVIDERS w "diagrams_render" arguments
  = diagrams_render w arguments.
Proof. reflexivity. Qed.

Lemma diagrams_render_rejected w (arguments : gmap string string) :
  has_import (default EmptyString (arguments !! "code")) = false ->
  diagrams_render w arguments = ([], Return [TextContent import_missing_error]).
Proof.
  unfold has_import, diagrams_render. intros H.
  apply orb_false_iff in H as [-> ->]. reflexivity.
Qed.

Lemma diagrams_render_accepted w (arguments : gmap string string) :
  has_import (default EmptyString (arguments !! "code")) = true ->
  diagrams_render w arguments
  = (result <- lift (render_diagram w (default EmptyString (arguments !! "code"))
                       (default "png" (arguments !! "format"))) ;;
     match result with
     | Failure error => ret [TextContent ("Error: " +:+ error)]
     | Success _ content mime_type =>
         if PyStr.truthy (arguments !! "output_path") then
           found <- path_exists w (PurePosixPath.parse "/output") ;;
           if (found : bool) then
             emit (EvMkdir (PurePosixPath.str (PurePosixPath.parent
               (PurePosixPath.truediv (PurePosixPath.parse "/output")
                  (with_extension (default EmptyString (arguments !! "output_path"))
                     (default "png" (arguments !! "format"))))))) ;;;
             emit (EvWrite (PurePosixPath.str
               (PurePosixPath.truediv (PurePosixPath.parse "/output")
                  (with_extension (default EmptyString (arguments !! "output_path"))
                     (default "png" (arguments !! "format")))))
               content) ;;;
             build_contents (Some (PurePosixPath.str
               (PurePosixPath.truediv (PurePosixPath.parse "/output")
                  (with_extension (default EmptyString (arguments !! "output_path"))
                     (default "png" (arguments !! "format"))))))
               (default "png" (arguments !! "format")) content mime_type
           else ret [TextContent not_mounted_error]
         else build_contents None (default "png" (arguments !! "format"))
                content mime_type
     end).
Proof.
  unfold has_import, diagrams_render. intros H.
  destruct (PyStr.contains "from diagrams" _); [reflexivity |].
  destruct (PyStr.contains "import diagrams" _); [reflexivity | discriminate].
Qed.

Lemma find_generated_log tmpdir entries exts :
  Forall (fun ev => writes ev = false) (fst (find_generated tmpdir entries exts)).
Proof.
  induction exts as [|ext exts IH].
  - constructor.
  - rewrite find_generated_cons. destruct (glob_star ext entries) as [|f rest].
    + cbn [fst]. now constructor.
    + cbn [fst]. now repeat constructor.
Qed.

(** [render_diagram] only reads: nothing is created or written outside
    the temporary directory. *)
Lemma render_diagram_log w code output_format :
  Forall (fun ev => writes ev = false) (fst (render_diagram w code output_format)).
Proof.
  destruct (exec_outcome w code) as [entries | e] eqn:Hexec.
  - rewrite (render_diagram_completed _ _ _ _ Hexec). cbn [fst].
    constructor; [reflexivity |]. apply Forall_app. split.
    + repeat (constructor; [reflexivity |]). apply find_generated_log.
    + now repeat constructor.
  - rewrite (render_diagram_raised _ _ _ _ Hexec). cbn [fst].
    now repeat constructor.
Qed.

(** ** Paths *)

Lemma split_no_slash (s : string) :
  no_slash s = true -> PyStr.split "/" s = [s].
Proof.
  induction s as [|a s IH]; simpl; [reflexivity |].
  intros H. apply andb_true_iff in H as [Ha Hs].
  apply negb_true_iff in Ha. rewrite Ha, (IH Hs). reflexivity.
Qed.

(** Appending a separator-free suffix only extends the last piece. *)
Lemma split_append (pre ext : string) :
  no_slash ext = true ->
  exists init l,
    PyStr.split "/" pre = init ++ [l]
    /\ PyStr.split "/" (pre +:+ ext) = init ++ [l +:+ ext].
Proof.
  intros Hext. induction pre as [|a pre IH].
  - exists [], EmptyString. split; [reflexivity |].
    rewrite !append_nil. now apply split_no_slash.
  - destruct IH as (init & l & Hpre & Happ).
    rewrite append_cons. simpl. rewrite Hpre, Happ.
    destruct (Ascii.eqb a "/").
    + exists (EmptyString :: init), l. split; reflexivity.
    + destruct init as [|i init]; simpl.
      * exists [], (String a l). split; reflexivity.
      * exists (String a i :: init), l. split; reflexivity.
Qed.

Lemma kept_with_extension (l ext : string) :
  2 <= String.length ext -> PurePosixPath.kept (l +:+ ext) = true.
Proof.
  intros Hlen. unfold PurePosixPath.kept.
  assert (Hl : 2 <= String.length (l +:+ ext)) by (rewrite append_length; lia).
  apply andb_true_iff. split; apply negb_true_iff, String.eqb_neq;
    intros Heq; rewrite Heq in Hl; simpl in Hl; lia.
Qed.

Lemma join_snoc (sep : string) (l : list string) (x : string) :
  exists pre, PyStr.join sep (l ++ [x]) = pre +:+ x.
Proof.
  induction l as [|a l IH].
  - now exists EmptyString.
  - destruct IH as [pre Hpre]. exists (a +:+ sep +:+ pre).
    change ((a :: l) ++ [x]) with (a :: (l ++ [x])).
    destruct (l ++ [x]) as [|b rest] eqn:Hl.
    + now destruct l.
    + change (PyStr.join sep (a :: b :: rest))
        with (a +:+ sep +:+ PyStr.join sep (b :: rest)).
      now rewrite Hpre, !append_assoc.
Qed.

Lemma str_snoc (r : string) (l : list string) (x : string) :
  PurePosixPath.str (PurePosixPath.mk r (l ++ [x]))
  = r +:+ PyStr.join "/" (l ++ [x]).
Proof.
  unfold PurePosixPath.str. simpl.
  destruct r; [| reflexivity]. destruct (l ++ [x]) eqn:Hl; [| reflexivity].
  now destruct l.
Qed.

Lemma parse_output :
  PurePosixPath.parse "/output" = PurePosixPath.mk "/" ["output"].
Proof. reflexivity. Qed.

(** The parts of a path that ends with a file extension end with a
    component carrying that extension. *)
Lemma parts_with_extension (q ext : string) :
  no_slash ext = true -> 2 <= String.length ext ->
  PyStr.endswith q ext = true ->
  exists init l, PurePosixPath.parts (PurePosixPath.parse q) = init ++ [l +:+ ext].
Proof.
  intros Hns Hlen Hq. apply endswith_spec in Hq as [pre ->].
  destruct (split_append pre ext Hns) as (init & l & _ & Happ).
  exists (List.filter PurePosixPath.kept init), l.
  unfold PurePosixPath.parse. cbn [PurePosixPath.parts].
  rewrite Happ, List.filter_app. simpl.
  now rewrite kept_with_extension.
Qed.

(** [str(Path("/output") / q)] keeps the extension [q] ends with. *)
Lemma str_truediv_extension (q ext : string) :
  no_slash ext = true -> 2 <= String.length ext ->
  PyStr.endswith q ext = true ->
  PyStr.endswith
    (PurePosixPath.str (PurePosixPath.truediv (PurePosixPath.parse "/output") q))
    ext = true.
Proof.
  intros Hns Hlen Hq.
  destruct (parts_with_extension q ext Hns Hlen Hq) as (init & l & Hparts).
  rewrite parse_output. unfold PurePosixPath.truediv.
  destruct (PurePosixPath.parse q) as [r ps] eqn:Hparse.
  cbn [PurePosixPath.root PurePosixPath.parts] in *. subst ps.
  apply endswith_spec.
  destruct (String.eqb r EmptyString).
  - change (["output"] ++ init ++ [l +:+ ext])
      with (("output" :: init) ++ [l +:+ ext]).
    rewrite str_snoc.
    destruct (join_snoc "/" ("output" :: init) (l +:+ ext)) as [pre ->].
    exists ("/" +:+ pre +:+ l). now rewrite !append_assoc.
  - rewrite str_snoc.
    destruct (join_snoc "/" init (l +:+ ext)) as [pre ->].
    exists (r +:+ pre +:+ l). now rewrite !append_assoc.
Qed.

(** A relative [q] with at least one component lands under [/output/]. *)
Lemma str_truediv_relative (q : string) :
  String.prefix "/" q = false ->
  PurePosixPath.parts (PurePosixPath.parse q) <> [] ->
  PurePosixPath.str (PurePosixPath.truediv (PurePosixPath.parse "/output") q)
  = "/output/" +:+ PyStr.join "/" (PurePosixPath.parts (PurePosixPath.parse q)).
Proof.
  intros Hrel Hparts. rewrite parse_output. unfold PurePosixPath.truediv.
  assert (Hroot : PurePosixPath.root (PurePosixPath.parse q) = EmptyString).
  { unfold PurePosixPath.parse, PurePosixPath.parse_root. cbn [PurePosixPath.root].
    destruct q as [|a q]; [reflexivity |].
    rewrite prefix_cons in Hrel. rewrite !prefix_cons.
    destruct (Ascii.ascii_dec "/" a); [| reflexivity].
    destruct q; discriminate. }
  rewrite Hroot. cbn [String.eqb PurePosixPath.root PurePosixPath.parts].
  destruct (PurePosixPath.parts (PurePosixPath.parse q)) as [|c cs]; [contradiction |].
  reflexivity.
Qed.

(** [str] of a path under a root is never the empty string. *)
Lemma str_truediv_truthy (q : string) :
  PyStr.truthy (Some (PurePosixPath.str
    (PurePosixPath.truediv (PurePosixPath.parse "/output") q))) = true.
Proof.
  rewrite parse_output. unfold PurePosixPath.truediv, PyStr.truthy.
  apply negb_true_iff, String.eqb_neq.
  destruct (PurePosixPath.parse q) as [r ps].
  cbn [PurePosixPath.root PurePosixPath.parts].
  destruct r as [|c r]; [discriminate |].
  cbn [String.eqb]. unfold PurePosixPath.str. cbn [PurePosixPath.root PurePosixPath.parts].
  rewrite append_cons. discriminate.
Qed.

(** ** The response of a successful render *)

Lemma build_contents_image saved_path output_format content mime_type :
  output_format <> "svg" ->
  build_contents saved_path output_format content mime_type
  = ([], Return (saved_items saved_path
                 ++ [ImageContent (PyBytes.b64encode content) mime_type])).
Proof.
  intros Hfmt. apply String.eqb_neq in Hfmt.
  unfold build_contents, artifact_item, saved_items. rewrite Hfmt.
  now destruct (PyStr.truthy saved_path).
Qed.

Lemma build_contents_text saved_path content mime_type text :
  PyBytes.decode content = inl text ->
  build_contents saved_path "svg" content mime_type
  = ([], Return (saved_items saved_path ++ [TextContent text])).
Proof.
  intros Hdec. unfold build_contents, artifact_item, saved_items.
  rewrite Hdec. now destruct (PyStr.truthy saved_path).
Qed.

Lemma build_contents_undecodable saved_path content mime_type start :
  PyBytes.decode content = inr start ->
  build_contents saved_path "svg" content mime_type
  = ([], Raise (UnicodeDecodeError start)).
Proof.
  intros Hdec. unfold build_contents, artifact_item. now rewrite Hdec.
Qed.

Lemma build_contents_log saved_path output_format content mime_type :
  fst (build_contents saved_path output_format content mime_type) = [].
Proof.
  destruct (String.eqb_spec output_format "svg") as [-> | Hfmt].
  - destruct (PyBytes.decode content) as [text | start] eqn:Hdec.
    + now rewrite (build_contents_text _ _ _ _ Hdec).
    + now rewrite (build_contents_undecodable _ _ _ _ Hdec).
  - now rewrite build_contents_image.
Qed.

Lemma diagrams_render_success w (arguments : gmap string string)
  log filename content mime_type :
  has_import (default EmptyString (arguments !! "code")) = true ->
  render_diagram w (default EmptyString (arguments !! "code"))
    (default "png" (arguments !! "format"))
  = (log, Return (Success filename content mime_type)) ->
  diagrams_render w arguments
  = if PyStr.truthy (arguments !! "output_path") then
      if output_dir_exists w then
        (log ++ [EvExists "/output";
                 EvMkdir (PurePosixPath.str (PurePosixPath.parent (full_path arguments)));
                 EvWrite (PurePosixPath.str (full_path arguments)) content],
         snd (build_contents (Some (PurePosixPath.str (full_path arguments)))
                (default "png" (arguments !! "format")) content mime_type))
      else (log ++ [EvExists "/output"], Return [TextContent not_mounted_error])
    else
      (log, snd (build_contents None (default "png" (arguments !! "format"))
                   content mime_type)).
Proof.
  intros Himport Hrender.
  rewrite (diagrams_render_accepted _ _ Himport), Hrender.
  unfold lift. rewrite bind_Return. fold (full_path arguments).
  destruct (PyStr.truthy (arguments !! "output_path")).
  - unfold path_exists, emit, ret, bind.
    destruct (output_dir_exists w); [| reflexivity].
    pose proof (build_contents_log (Some (PurePosixPath.str (full_path arguments)))
                  (default "png" (arguments !! "format")) content mime_type) as Hlog.
    destruct (build_contents _ _ _ _) as [l r]. simpl in Hlog. subst l.
    reflexivity.
  - pose proof (build_contents_log None
                  (default "png" (arguments !! "format")) content mime_type) as Hlog.
    destruct (build_contents _ _ _ _) as [l r]. simpl in Hlog. subst l.
    cbn [fst snd]. now rewrite app_nil_r.
Qed.

Lemma diagrams_render_failure w (arguments : gmap string string) log error :
  has_import (default EmptyString (arguments !! "code")) = true ->
  render_diagram w (default EmptyString (arguments !! "code"))
    (default "png" (arguments !! "format"))
  = (log, Return (Failure error)) ->
  diagrams_render w arguments = (log, Return [TextContent ("Error: " +:+ error)]).
Proof.
  intros Himport Hrender.
  rewrite (diagrams_render_accepted _ _ Himport), Hrender.
  unfold lift. rewrite bind_Return. cbn [fst snd ret]. now rewrite app_nil_r.
Qed.

Example sample_saved_png :
  call_tool EmptyString [] (Sample.world true) "diagrams_render"
    (Sample.request Sample.prog_diagram "png" "diagram")
  = ([EvMkdtemp "/tmp/tmpk3v9x2ab"; EvChdir "/tmp/tmpk3v9x2ab";
      EvExec Sample.prog_diagram; EvGlob "/tmp/tmpk3v9x2ab" "*.png";
      EvRead "/tmp/tmpk3v9x2ab/web_service.png"; EvCleanup "/tmp/tmpk3v9x2ab";
      EvExists "/output"; EvMkdir "/output";
      EvWrite "/output/diagram.png" Sample.png_bytes],
     Return [TextContent "Saved to: /output/diagram.png";
             ImageContent "iVBORw0KGgo=" "image/png"]).
Proof. vm_compute. reflexivity. Qed.

(** ** The specified behaviour of the render handler *)

Lemma C1_witness :
  snd (render_diagram (Sample.world false) Sample.prog_two_formats "pdf")
  = Return (Success "arch.png" Sample.png_bytes "image/png").
Proof.
  refine (proj1 (proj2 (C1_artifact_search (Sample.world false)
            Sample.prog_two_formats "pdf"
            [("arch.svg", RegularFile Sample.svg_bytes);
             ("arch.png", RegularFile Sample.png_bytes)]
            _ eq_refl))
          [".pdf"] ".png" [".svg"; ".pdf"] ("arch.png", RegularFile Sample.png_bytes)
          eq_refl _ _).
  - right. right. left. reflexivity.
  - intros e [<- | []] g [<- | [<- | []]]; reflexivity.
  - exists [("arch.svg", RegularFile Sample.svg_bytes)], [].
    repeat split. intros g [<- | []]. reflexivity.
Defined.

(** C1 as stated fails where the first match is no readable file.  A
    program that makes the directory [out.png] and writes the file
    [b.svg] is asked for [png]: the file [b.svg] matches a known
    extension, yet the render is no success with it but the failure of
    [open] on the directory.  And with the directory alone no file
    matches any known extension, yet the diagnostic is that of [open],
    not the no-diagram text. *)
Lemma C1_counterexample :
  (first_match ".svg" [Sample.out_png_directory; ("b.svg", RegularFile Sample.svg_bytes)]
     ("b.svg", RegularFile Sample.svg_bytes)
   /\ render_diagram (Sample.world false) Sample.prog_directory "png"
      = ([EvMkdtemp "/tmp/tmpk3v9x2ab"; EvChdir "/tmp/tmpk3v9x2ab";
          EvExec Sample.prog_directory; EvGlob "/tmp/tmpk3v9x2ab" "*.png";
          EvRead "/tmp/tmpk3v9x2ab/out.png"; EvCleanup "/tmp/tmpk3v9x2ab"],
         Return (Failure "[Errno 21] Is a directory: '/tmp/tmpk3v9x2ab/out.png'")))
  /\ ((forall content ext,
         ~ In ("out.png", RegularFile content) [Sample.out_png_directory]
         /\ ~ first_match ext [Sample.out_png_directory] ("out.png", RegularFile content))
      /\ snd (render_diagram (world_leaving [Sample.out_png_directory] false)
                Sample.prog_diagram "svg")
         = Return (Failure "[Errno 21] Is a directory: '/tmp/tmpk3v9x2ab/out.png'")
      /\ "[Errno 21] Is a directory: '/tmp/tmpk3v9x2ab/out.png'" <> no_diagram_error).
Proof.
  split; [split | split; [| split]].
  - exists [Sample.out_png_directory], []. repeat split.
    intros g [<- | []]. reflexivity.
  - vm_compute. reflexivity.
  - intros content ext. split.
    + intros [H | []]. discriminate.
    + intros (before & after & H & _).
      destruct before as [|g [|g' before]]; discriminate.
  - vm_compute. reflexivity.
  - discriminate.
Qed.

(** C2, as amended. When evaluation raises an exception derived from
    [Exception], the render is a [Failure] whose diagnostic is the error
    text behind [Python syntax error: ] for a syntax-level fault, behind
    [Import error: ] for a missing-dependency fault, and the bare error
    text for any other fault; the handler answers with the single text
    [Error: ] followed by that diagnostic.  The diagnostic of a
    syntax-level fault differs from that of every missing-dependency
    fault. *)
Theorem C2_evaluation_errors (w : World) (code output_format : string) (e : exn) :
  exec_outcome w code = Raised e ->
  isinstance_Exception e = true ->
  let prefix :=
    if isinstance_SyntaxError e then "Python syntax error: "
    else if isinstance_ImportError e then "Import error: "
    else EmptyString in
  snd (render_diagram w code output_format)
  = Return (Failure (prefix +:+ exn_str e))
  /\ (forall OVERVIEW PROVIDERS (arguments : gmap string string),
        arguments !! "code" = Some code ->
        default "png" (arguments !! "format") = output_format ->
        has_import code = true ->
        snd (call_tool OVERVIEW PROVIDERS w "diagrams_render" arguments)
        = Return [TextContent ("Error: " +:+ prefix +:+ exn_str e)])
  /\ (forall e',
        isinstance_SyntaxError e = true -> isinstance_ImportError e' = true ->
        "Python syntax error: " +:+ exn_str e <> "Import error: " +:+ exn_str e').
Proof.
  intros Hexec Hexc prefix.
  assert (Hrender : render_diagram w code output_format
                    = ([EvMkdtemp (tmpdir_name w); EvChdir (tmpdir_name w);
                        EvExec code; EvCleanup (tmpdir_name w)],
                       Return (Failure (prefix +:+ exn_str e)))).
  { rewrite (render_diagram_raised _ _ _ _ Hexec). subst prefix.
    destruct (isinstance_SyntaxError e); [reflexivity |].
    destruct (isinstance_ImportError e); [reflexivity |].
    now rewrite Hexc. }
  split; [now rewrite Hrender | split].
  - intros OVERVIEW PROVIDERS arguments Hcode Hfmt Himport.
    rewrite call_tool_render.
    erewrite diagrams_render_failure; [reflexivity | |].
    + now rewrite Hcode.
    + rewrite Hcode, Hfmt. exact Hrender.
  - intros e' _ _. rewrite !append_cons. discriminate.
Qed.

Lemma C2_witness :
  snd (render_diagram (Sample.world false) Sample.prog_missing_module "png")
  = Return (Failure "Import error: No module named 'nosuchmodule'").
Proof.
  exact (proj1 (C2_evaluation_errors (Sample.world false)
                  Sample.prog_missing_module "png"
                  (Exn ModuleNotFoundError "No module named 'nosuchmodule'")
                  eq_refl eq_refl)).
Defined.

(** C2 as stated fails twice.  [sys.exit(1)] raises [SystemExit], which
    no [except] clause of [render_diagram] catches: the call ends with
    that exception, not with a [Failure].  And a generic fault carries no
    prefix of its own: [Exception('Python syntax error: boom')] is
    reported with the very diagnostic of [SyntaxError('boom')]. *)
Lemma C2_counterexample :
  (render_diagram (Sample.world false) Sample.prog_exit "png"
   = ([EvMkdtemp "/tmp/tmpk3v9x2ab"; EvChdir "/tmp/tmpk3v9x2ab";
       EvExec Sample.prog_exit; EvCleanup "/tmp/tmpk3v9x2ab"],
      Raise (Exn SystemExit "1"))
   /\ ~ (exists error,
           snd (render_diagram (Sample.world false) Sample.prog_exit "png")
           = Return (Failure error)))
  /\ (snd (render_diagram (Sample.world false) Sample.prog_generic "png")
      = Return (Failure "Python syntax error: boom")
      /\ snd (render_diagram (Sample.world false) Sample.prog_syntax "png")
         = Return (Failure "Python syntax error: boom")).
Proof.
  split; [split |].
  - vm_compute. reflexivity.
  - intros [error H]. vm_compute in H. discriminate.
  - split; vm_compute; reflexivity.
Qed.

(** C3. A render request whose code contains neither [from diagrams] nor
    [import diagrams] is answered with the plain error text and performs
    no effect at all: the log is empty, so no temporary directory is
    made, nothing is executed and nothing is written. *)
Theorem C3_rejected_before_evaluation OVERVIEW PROVIDERS (w : World)
  (arguments : gmap string string) :
  PyStr.contains "from diagrams" (default EmptyString (arguments !! "code")) = false ->
  PyStr.contains "import diagrams" (default EmptyString (arguments !! "code")) = false ->
  call_tool OVERVIEW PROVIDERS w "diagrams_render" arguments
  = ([], Return [TextContent "Error: Code must import from the diagrams library"]).
Proof.
  intros Hfrom Himport. rewrite call_tool_render.
  apply diagrams_render_rejected. unfold has_import. now rewrite Hfrom, Himport.
Qed.

Lemma C3_witness :
  call_tool EmptyString [] (Sample.world true) "diagrams_render"
    (Sample.request Sample.prog_no_import "png" "diagram")
  = ([], Return [TextContent "Error: Code must import from the diagrams library"]).
Proof.
  exact (C3_rejected_before_evaluation EmptyString [] (Sample.world true)
           (Sample.request Sample.prog_no_import "png" "diagram")
           eq_refl eq_refl).
Defined.

(** C4. With [output_path] supplied, a successful render and no output
    root, the response is the mount-configuration error text, and the
    call made no directory and wrote no file: beyond what the render
    did, it only asked whether [/output] exists. *)
Theorem C4_output_root_missing OVERVIEW PROVIDERS (w : World)
  (arguments : gmap string string) log filename content mime_type :
  has_import (default EmptyString (arguments !! "code")) = true ->
  PyStr.truthy (arguments !! "output_path") = true ->
  output_dir_exists w = false ->
  render_diagram w (default EmptyString (arguments !! "code"))
    (default "png" (arguments !! "format"))
  = (log, Return (Success filename content mime_type)) ->
  call_tool OVERVIEW PROVIDERS w "diagrams_render" arguments
  = (log ++ [EvExists "/output"],
     Return [TextContent
       "Error: /output directory not mounted. Use: docker run -v /your/path:/output ..."])
  /\ (forall ev,
        In ev (fst (call_tool OVERVIEW PROVIDERS w "diagrams_render" arguments)) ->
        forall path, ev <> EvMkdir path /\ forall bytes, ev <> EvWrite path bytes).
Proof.
  intros Himport Hpath Hroot Hrender.
  assert (Hcall : call_tool OVERVIEW PROVIDERS w "diagrams_render" arguments
                  = (log ++ [EvExists "/output"],
                     Return [TextContent not_mounted_error])).
  { rewrite call_tool_render, (diagrams_render_success _ _ _ _ _ _ Himport Hrender).
    now rewrite Hpath, Hroot. }
  split; [exact Hcall |].
  rewrite Hcall. cbn [fst]. intros ev Hev path.
  assert (Hro : writes ev = false).
  { apply in_app_or in Hev as [Hev | [<- | []]]; [| reflexivity].
    pose proof (render_diagram_log w (default EmptyString (arguments !! "code"))
                  (default "png" (arguments !! "format"))) as Hlog.
    rewrite Hrender in Hlog. cbn [fst] in Hlog.
    rewrite List.Forall_forall in Hlog. now apply Hlog. }
  split; [| intros bytes]; intros ->; discriminate.
Qed.

Lemma C4_witness :
  call_tool EmptyString [] (Sample.world false) "diagrams_render"
    (Sample.request Sample.prog_diagram "png" "diagram")
  = ([EvMkdtemp "/tmp/tmpk3v9x2ab"; EvChdir "/tmp/tmpk3v9x2ab";
      EvExec Sample.prog_diagram; EvGlob "/tmp/tmpk3v9x2ab" "*.png";
      EvRead "/tmp/tmpk3v9x2ab/web_service.png"; EvCleanup "/tmp/tmpk3v9x2ab"]
     ++ [EvExists "/output"],
     Return [TextContent
       "Error: /output directory not mounted. Use: docker run -v /your/path:/output ..."]).
Proof.
  exact (proj1 (C4_output_root_missing EmptyString [] (Sample.world false)
                  (Sample.request Sample.prog_diagram "png" "diagram")
                  _ "web_service.png" Sample.png_bytes "image/png"
                  eq_refl eq_refl eq_refl eq_refl)).
Defined.

Lemma with_extension_endswith (output_path output_format : string) :
  PyStr.endswith (with_extension output_path output_format)
    ("." +:+ output_format) = true.
Proof.
  unfold with_extension.
  destruct (PyStr.endswith output_path ("." +:+ output_format)) eqn:H; simpl.
  - exact H.
  - apply endswith_append.
Qed.

(** C5. On a save, the file is written at [output_path] itself when it
    already ends with the extension of the requested format, and at
    [output_path] followed by that extension otherwise; either way the
    name ends with the extension once.  [diagram] and [diagram.png], with
    format [png], are both written at [/output/diagram.png]. *)
Theorem C5_extension_normalised OVERVIEW PROVIDERS (w : World)
  (arguments : gmap string string) (output_path : string)
  log filename content mime_type :
  let output_format := default "png" (arguments !! "format") in
  has_import (default EmptyString (arguments !! "code")) = true ->
  arguments !! "output_path" = Some output_path ->
  output_path <> EmptyString ->
  output_dir_exists w = true ->
  render_diagram w (default EmptyString (arguments !! "code")) output_format
  = (log, Return (Success filename content mime_type)) ->
  exists saved_as,
    (PyStr.endswith output_path ("." +:+ output_format) = true ->
     saved_as = output_path)
    /\ (PyStr.endswith output_path ("." +:+ output_format) = false ->
        saved_as = output_path +:+ "." +:+ output_format)
    /\ PyStr.endswith saved_as ("." +:+ output_format) = true
    /\ fst (call_tool OVERVIEW PROVIDERS w "diagrams_render" arguments)
       = log ++ [EvExists "/output";
                 EvMkdir (PurePosixPath.str (PurePosixPath.parent
                   (PurePosixPath.truediv (PurePosixPath.parse "/output") saved_as)));
                 EvWrite (PurePosixPath.str
                   (PurePosixPath.truediv (PurePosixPath.parse "/output") saved_as))
                   content]
    /\ (output_format = "png" ->
        output_path = "diagram" \/ output_path = "diagram.png" ->
        PurePosixPath.str
          (PurePosixPath.truediv (PurePosixPath.parse "/output") saved_as)
        = "/output/diagram.png").
Proof.
  intros output_format Himport Hpath Hne Hroot Hrender.
  exists (with_extension output_path output_format).
  split; [| split; [| split; [| split]]].
  - unfold with_extension. now intros ->.
  - unfold with_extension. now intros ->.
  - apply with_extension_endswith.
  - rewrite call_tool_render, (diagrams_render_success _ _ _ _ _ _ Himport Hrender).
    unfold full_path. rewrite Hpath. fold output_format. cbn [default PyStr.truthy].
    apply String.eqb_neq in Hne. rewrite Hne, Hroot. reflexivity.
  - intros -> [-> | ->]; reflexivity.
Qed.

Lemma C5_witness :
  exists saved_as,
    (PyStr.endswith "diagram" ".png" = true -> saved_as = "diagram")
    /\ (PyStr.endswith "diagram" ".png" = false -> saved_as = "diagram" +:+ ".png")
    /\ PyStr.endswith saved_as ".png" = true
    /\ fst (call_tool EmptyString [] (Sample.world true) "diagrams_render"
              (Sample.request Sample.prog_diagram "png" "diagram"))
       = [EvMkdtemp "/tmp/tmpk3v9x2ab"; EvChdir "/tmp/tmpk3v9x2ab";
          EvExec Sample.prog_diagram; EvGlob "/tmp/tmpk3v9x2ab" "*.png";
          EvRead "/tmp/tmpk3v9x2ab/web_service.png"; EvCleanup "/tmp/tmpk3v9x2ab"]
         ++ [EvExists "/output";
             EvMkdir (PurePosixPath.str (PurePosixPath.parent
               (PurePosixPath.truediv (PurePosixPath.parse "/output") saved_as)));
             EvWrite (PurePosixPath.str
               (PurePosixPath.truediv (PurePosixPath.parse "/output") saved_as))
               Sample.png_bytes]
    /\ ("png" = "png" ->
        "diagram" = "diagram" \/ "diagram" = "diagram.png" ->
        PurePosixPath.str
          (PurePosixPath.truediv (PurePosixPath.parse "/output") saved_as)
        = "/output/diagram.png").
Proof.
  refine (C5_extension_normalised EmptyString [] (Sample.world true)
            (Sample.request Sample.prog_diagram "png" "diagram") "diagram"
            _ "web_service.png" Sample.png_bytes "image/png"
            eq_refl eq_refl _ eq_refl eq_refl).
  discriminate.
Defined.

(** A successful render comes from a completed evaluation: the artifact
    is the first entry of the first searched extension that has one, and
    is a readable file. *)
Lemma render_diagram_Success w code output_format log filename content mime_type :
  render_diagram w code output_format
  = (log, Return (Success filename content mime_type)) ->
  exists entries ext,
    exec_outcome w code = Completed entries
    /\ In ext (search_order output_format)
    /\ first_match ext entries (filename, RegularFile content)
    /\ mime_type = get_mime_type ext.
Proof.
  intros Hrender. destruct (exec_outcome w code) as [entries | e] eqn:Hexec.
  - rewrite (render_diagram_completed _ _ _ _ Hexec) in Hrender.
    apply (f_equal snd) in Hrender. cbn [snd] in Hrender.
    destruct (snd (find_generated (tmpdir_name w) entries (search_order output_format)))
      as [r | e] eqn:Hfind; [| discriminate].
    injection Hrender as ->.
    destruct (find_generated_Success _ _ _ _ _ _ Hfind) as (ext & Hin & Hf & Hm).
    exists entries, ext. auto.
  - rewrite (render_diagram_raised _ _ _ _ Hexec) in Hrender.
    apply (f_equal snd) in Hrender. cbn [snd] in Hrender.
    destruct (isinstance_SyntaxError e); [discriminate |].
    destruct (isinstance_ImportError e); [discriminate |].
    destruct (isinstance_Exception e); discriminate.
Qed.







Lemma decode_invalid (content : list byte) :
  PyBytes.utf8_valid content = false ->
  exists start, PyBytes.decode content = inr start.
Proof.
  unfold PyBytes.utf8_valid, PyBytes.decode.
  destruct (PyBytes.first_ill_formed content 0) as [start |]; [eauto | discriminate].
Qed.

(** C9. With format [svg] the bytes of the artifact are decoded without
    a guard: the handler returns a payload only when they are valid
    UTF-8 and otherwise ends with [UnicodeDecodeError].  This happens:
    a program that leaves no [.svg] file but a [.png] file, found by the
    fallback search, makes the handler raise where a text response was
    due. *)
Theorem C9_svg_decode_unguarded OVERVIEW PROVIDERS (w : World)
  (arguments : gmap string string) log filename content mime_type :
  has_import (default EmptyString (arguments !! "code")) = true ->
  default "png" (arguments !! "format") = "svg" ->
  render_diagram w (default EmptyString (arguments !! "code")) "svg"
  = (log, Return (Success filename content mime_type)) ->
  (PyStr.truthy (arguments !! "output_path") = true -> output_dir_exists w = true) ->
  (forall payload,
     snd (call_tool OVERVIEW PROVIDERS w "diagrams_render" arguments) = Return payload ->
     PyBytes.utf8_valid content = true)
  /\ (PyBytes.utf8_valid content = false ->
      exists start,
        snd (call_tool OVERVIEW PROVIDERS w "diagrams_render" arguments)
        = Raise (UnicodeDecodeError start))
  /\ (exists (w' : World) (arguments' : gmap string string) entries f,
        exec_outcome w' (default EmptyString (arguments' !! "code")) = Completed entries
        /\ arguments' !! "format" = Some "svg"
        /\ no_match ".svg" entries
        /\ first_match ".png" entries (fst f, RegularFile (snd f))
        /\ PyBytes.utf8_valid (snd f) = false
        /\ snd (call_tool OVERVIEW PROVIDERS w' "diagrams_render" arguments')
           = Raise (UnicodeDecodeError 0)).
Proof.
  intros Himport Hfmt Hrender Hroot.
  assert (Hcall : exists sp,
            snd (call_tool OVERVIEW PROVIDERS w "diagrams_render" arguments)
            = snd (build_contents sp "svg" content mime_type)).
  { rewrite <- Hfmt in Hrender.
    rewrite call_tool_render, (diagrams_render_success _ _ _ _ _ _ Himport Hrender).
    rewrite Hfmt.
    destruct (PyStr.truthy (arguments !! "output_path")).
    - rewrite (Hroot eq_refl). cbn [snd]. eauto.
    - cbn [snd]. eauto. }
  destruct Hcall as [sp Hcall]. rewrite Hcall.
  split; [| split].
  - intros payload Hpayload.
    destruct (PyBytes.utf8_valid content) eqn:Hvalid; [reflexivity |].
    destruct (decode_invalid _ Hvalid) as [start Hdec].
    rewrite (build_contents_undecodable _ _ _ _ Hdec) in Hpayload. discriminate.
  - intros Hvalid. destruct (decode_invalid _ Hvalid) as [start Hdec].
    exists start. now rewrite (build_contents_undecodable _ _ _ _ Hdec).
  - exists (Sample.world false), (Sample.request_inline Sample.prog_diagram "svg"),
      [("web_service.png", RegularFile Sample.png_bytes)],
      ("web_service.png", Sample.png_bytes).
    split; [reflexivity |]. split; [reflexivity |]. split; [| split; [| split]].
    + intros g [<- | []]. reflexivity.
    + exists [], []. repeat split. intros g [].
    + reflexivity.
    + reflexivity.
Qed.

Lemma C9_witness :
  exists start,
    snd (call_tool EmptyString [] (Sample.world false) "diagrams_render"
           (Sample.request_inline Sample.prog_diagram "svg"))
    = Raise (UnicodeDecodeError start).
Proof.
  exact (proj1 (proj2 (C9_svg_decode_unguarded EmptyString [] (Sample.world false)
           (Sample.request_inline Sample.prog_diagram "svg")
           _ "web_service.png" Sample.png_bytes "image/png"
           eq_refl eq_refl eq_refl (fun H => False_ind _ (Bool.diff_false_true H))))
         eq_refl).
Defined.

Lemma supported_extension (output_format : string) :
  supported output_format ->
  no_slash ("." +:+ output_format) = true
  /\ 2 <= String.length ("." +:+ output_format).
Proof.
  unfold supported. simpl.
  intros [<- | [<- | [<- | []]]]; split; simpl; (reflexivity || lia).
Qed.

(** C10. The name a save writes is built from the requested format
    alone: whatever file the search returned, the handler writes its
    bytes unchanged to a path that ends with the extension of the
    requested format, and that lies under [/output/] when [output_path]
    is relative. *)
Theorem C10_saved_extension_from_format OVERVIEW PROVIDERS (w : World)
  (arguments : gmap string string) (output_path : string)
  log filename content mime_type :
  let output_format := default "png" (arguments !! "format") in
  supported output_format ->
  has_import (default EmptyString (arguments !! "code")) = true ->
  arguments !! "output_path" = Some output_path ->
  output_path <> EmptyString ->
  output_dir_exists w = true ->
  render_diagram w (default EmptyString (arguments !! "code")) output_format
  = (log, Return (Success filename content mime_type)) ->
  exists path dir,
    fst (call_tool OVERVIEW PROVIDERS w "diagrams_render" arguments)
    = log ++ [EvExists "/output"; EvMkdir dir; EvWrite path content]
    /\ PyStr.endswith path ("." +:+ output_format) = true
    /\ (String.prefix "/" output_path = false ->
        exists rest, path = "/output/" +:+ rest)
    /\ (exists entries ext,
          exec_outcome w (default EmptyString (arguments !! "code")) = Completed entries
          /\ In ext ["." +:+ output_format; ".png"; ".svg"; ".pdf"]
          /\ first_match ext entries (filename, RegularFile content)).
Proof.
  intros output_format Hfmt Himport Hpath Hne Hroot Hrender.
  destruct (supported_extension _ Hfmt) as [Hns Hlen].
  pose proof (with_extension_endswith output_path output_format) as Hext.
  exists (PurePosixPath.str (full_path arguments)),
    (PurePosixPath.str (PurePosixPath.parent (full_path arguments))).
  split; [| split; [| split]].
  - rewrite call_tool_render, (diagrams_render_success _ _ _ _ _ _ Himport Hrender).
    rewrite Hpath. cbn [PyStr.truthy].
    apply String.eqb_neq in Hne. rewrite Hne, Hroot. reflexivity.
  - unfold full_path. rewrite Hpath. cbn [default]. fold output_format.
    now apply str_truediv_extension.
  - intros Hrel. unfold full_path. rewrite Hpath.
    change (default EmptyString (Some output_path)) with output_path.
    fold output_format. eexists. apply str_truediv_relative.
    + unfold with_extension.
      destruct (PyStr.endswith output_path ("." +:+ output_format)); cbn [negb];
        [exact Hrel |].
      destruct output_path as [|a s]; [contradiction |].
      rewrite append_cons, prefix_cons. rewrite prefix_cons in Hrel.
      destruct (Ascii.ascii_dec "/" a); [| reflexivity].
      destruct s; discriminate.
    + destruct (parts_with_extension _ _ Hns Hlen Hext) as (init & l & ->).
      now destruct init.
  - destruct (render_diagram_Success _ _ _ _ _ _ _ Hrender)
      as (entries & ext & Hexec & Hin & Hf & _).
    exists entries, ext. auto.
Qed.

Lemma C10_witness :
  exists path dir,
    fst (call_tool EmptyString [] (Sample.world true) "diagrams_render"
           (Sample.request Sample.prog_diagram "pdf" "out/arch"))
    = [EvMkdtemp "/tmp/tmpk3v9x2ab"; EvChdir "/tmp/tmpk3v9x2ab";
       EvExec Sample.prog_diagram; EvGlob "/tmp/tmpk3v9x2ab" "*.pdf";
       EvGlob "/tmp/tmpk3v9x2ab" "*.png";
       EvRead "/tmp/tmpk3v9x2ab/web_service.png"; EvCleanup "/tmp/tmpk3v9x2ab"]
      ++ [EvExists "/output"; EvMkdir dir; EvWrite path Sample.png_bytes]
    /\ PyStr.endswith path ".pdf" = true
    /\ (String.prefix "/" "out/arch" = false -> exists rest, path = "/output/" +:+ rest)
    /\ (exists entries ext,
          Sample.evaluate Sample.prog_diagram = Completed entries
          /\ In ext [".pdf"; ".png"; ".svg"; ".pdf"]
          /\ first_match ext entries ("web_service.png", RegularFile Sample.png_bytes)).
Proof.
  refine (C10_saved_extension_from_format EmptyString [] (Sample.world true)
            (Sample.request Sample.prog_diagram "pdf" "out/arch") "out/arch"
            _ "web_service.png" Sample.png_bytes "image/png"
            _ eq_refl eq_refl _ eq_refl eq_refl).
  - right. right. left. reflexivity.
  - discriminate.
Defined.

(** * Further properties of the handlers *)

(** ** Substrings *)

Lemma prefix_empty (s : string) : String.prefix EmptyString s = true.
Proof. now destruct s. Qed.

Lemma prefix_append (needle post : string) :
  String.prefix needle (needle +:+ post) = true.
Proof.
  induction needle as [|a needle IH]; [apply prefix_empty |].
  rewrite append_cons, prefix_cons.
  now destruct (Ascii.ascii_dec a a).
Qed.

Lemma prefix_spec (needle s : string) :
  String.prefix needle s = true -> exists post, s = needle +:+ post.
Proof.
  revert s. induction needle as [|a needle IH]; intros s H.
  - now exists s.
  - destruct s as [|b s]; [discriminate |].
    rewrite prefix_cons in H.
    destruct (Ascii.ascii_dec a b) as [<- | _]; [| discriminate].
    destruct (IH s H) as [post ->]. now exists post.
Qed.

Lemma contains_cons (needle : string) (a : ascii) (s : string) :
  PyStr.contains needle (String a s)
  = String.prefix needle (String a s) || PyStr.contains needle s.
Proof. reflexivity. Qed.

Lemma contains_empty (needle : string) :
  PyStr.contains needle EmptyString = String.prefix needle EmptyString.
Proof. apply orb_false_r. Qed.

(** [needle in s] holds exactly when [s] splits around [needle]. *)
Lemma contains_spec (needle s : string) :
  PyStr.contains needle s = true
  <-> exists pre post, s = pre +:+ needle +:+ post.
Proof.
  induction s as [|a s IH].
  - rewrite contains_empty. split.
    + intros H. destruct (prefix_spec _ _ H) as [post ->].
      now exists EmptyString, post.
    + intros ([|b pre] & post & H).
      * rewrite append_nil in H. rewrite H. apply prefix_append.
      * rewrite append_cons in H. discriminate.
  - rewrite contains_cons, orb_true_iff, IH. split.
    + intros [H | (pre & post & ->)].
      * destruct (prefix_spec _ _ H) as [post Hs].
        exists EmptyString, post. now rewrite append_nil.
      * now exists (String a pre), post.
    + intros ([|b pre] & post & H).
      * left. rewrite append_nil in H. rewrite H. apply prefix_append.
      * right. rewrite append_cons in H. injection H as _ ->. now exists pre, post.
Qed.

Lemma contains_append_r (needle s t : string) :
  PyStr.contains needle t = true -> PyStr.contains needle (s +:+ t) = true.
Proof.
  rewrite !contains_spec. intros (pre & post & ->).
  exists (s +:+ pre), post. now rewrite append_assoc.
Qed.

Lemma contains_here (needle post : string) :
  PyStr.contains needle (needle +:+ post) = true.
Proof. apply contains_spec. now exists EmptyString, post. Qed.

Lemma contains_here2 (a b post : string) :
  PyStr.contains (a +:+ b) (a +:+ b +:+ post) = true.
Proof. apply contains_spec. exists EmptyString, post. now rewrite append_nil, append_assoc. Qed.

Lemma contains_here3 (a b c post : string) :
  PyStr.contains (a +:+ b +:+ c) (a +:+ b +:+ c +:+ post) = true.
Proof.
  apply contains_spec. exists EmptyString, post.
  now rewrite append_nil, !append_assoc.
Qed.

Lemma prefix_chain3 (a b c post : string) :
  String.prefix (a +:+ b +:+ c) (a +:+ b +:+ c +:+ post) = true.
Proof.
  replace (a +:+ b +:+ c +:+ post) with ((a +:+ b +:+ c) +:+ post)
    by now rewrite !append_assoc.
  apply prefix_append.
Qed.

Lemma endswith_refl (s : string) : PyStr.endswith s s = true.
Proof. apply endswith_spec. now exists EmptyString. Qed.

Lemma endswith_append_r (s t suffix : string) :
  PyStr.endswith t suffix = true -> PyStr.endswith (s +:+ t) suffix = true.
Proof.
  rewrite !endswith_spec. intros [pre ->]. exists (s +:+ pre).
  now rewrite append_assoc.
Qed.

(** Finds a piece of a text written as a chain of concatenations. *)
Ltac find_in_chain :=
  repeat first
    [ apply contains_here3 | apply contains_here2 | apply contains_here
    | apply contains_append_r ].

(** ** The catalog *)

Lemma PROVIDERS_get_first (PROVIDERS before after : list (string * Provider))
  (category : string) (provider : Provider) :
  PROVIDERS = before ++ (category, provider) :: after ->
  (forall kv, In kv before -> fst kv <> category) ->
  PROVIDERS_get PROVIDERS category = Some provider.
Proof.
  intros -> Hbefore. unfold PROVIDERS_get.
  induction before as [|kv before IH]; simpl.
  - now rewrite String.eqb_refl.
  - assert (Hkv : String.eqb (fst kv) category = false)
      by (apply String.eqb_neq, Hbefore; now left).
    rewrite Hkv. apply IH. intros kv' Hin. apply Hbefore. now right.
Qed.

Lemma PROVIDERS_get_none (PROVIDERS : list (string * Provider)) (category : string) :
  ~ In category (List.map fst PROVIDERS) ->
  PROVIDERS_get PROVIDERS category = None.
Proof.
  unfold PROVIDERS_get. induction PROVIDERS as [|kv PROVIDERS IH]; simpl; intros Hin.
  - reflexivity.
  - assert (Hkv : String.eqb (fst kv) category = false)
      by (apply String.eqb_neq; intros Heq; apply Hin; now left).
    rewrite Hkv. apply IH. intros H. apply Hin. now right.
Qed.

Lemma PROVIDERS_get_key (PROVIDERS : list (string * Provider)) (category : string) :
  In category (List.map fst PROVIDERS) ->
  exists provider,
    PROVIDERS_get PROVIDERS category = Some provider
    /\ In (category, provider) PROVIDERS.
Proof.
  unfold PROVIDERS_get. induction PROVIDERS as [|[k p] PROVIDERS IH]; simpl; intros Hin.
  - contradiction.
  - destruct (String.eqb_spec k category) as [-> | Hne].
    + exists p. split; [reflexivity | now left].
    + destruct Hin as [Heq | Hin]; [contradiction |].
      destruct (IH Hin) as (provider & Hget & Hp). exists provider. auto.
Qed.

Lemma describe_lookup OVERVIEW PROVIDERS (arguments : gmap string string) category :
  arguments !! "category" = Some category ->
  category <> EmptyString ->
  diagrams_describe OVERVIEW PROVIDERS arguments
  = match PROVIDERS_get PROVIDERS category with
    | None =>
        [TextContent ("Unknown category: " +:+ category +:+ nl +:+ nl +:+
                      "Available: " +:+ PyStr.join ", " (List.map fst PROVIDERS))]
    | Some provider => [TextContent (provider_document category provider)]
    end.
Proof.
  intros Hcat Hne. unfold diagrams_describe. rewrite Hcat.
  apply String.eqb_neq in Hne. cbn [PyStr.truthy]. rewrite Hne. reflexivity.
Qed.

Lemma call_tool_describe_unknown OVERVIEW PROVIDERS (w : World)
  (arguments : gmap string string) category :
  arguments !! "category" = Some category ->
  category <> EmptyString ->
  ~ In category (List.map fst PROVIDERS) ->
  call_tool OVERVIEW PROVIDERS w "diagrams_describe" arguments
  = ([], Return [TextContent
       ("Unknown category: " +:+ category +:+ nl +:+ nl +:+
        "Available: " +:+ PyStr.join ", " (List.map fst PROVIDERS))]).
Proof.
  intros Hcat Hne Hkey.
  unfold call_tool. cbn [String.eqb Ascii.eqb Bool.eqb]. unfold ret.
  rewrite (describe_lookup _ _ _ _ Hcat Hne).
  now rewrite (PROVIDERS_get_none _ _ Hkey).
Qed.

(** X1. For a category that is a key of [PROVIDERS], describe answers,
    without any effect, with one text: it opens with the display name
    as a heading and contains the import line of the category, the
    modules joined by commas in the declared order and the example, and
    it ends with the link to the node list of the category. *)
Theorem describe_known_category OVERVIEW PROVIDERS (w : World)
  (arguments : gmap string string) before after category provider :
  arguments !! "category" = Some category ->
  category <> EmptyString ->
  PROVIDERS = before ++ (category, provider) :: after ->
  (forall kv, In kv before -> fst kv <> category) ->
  exists document,
    call_tool OVERVIEW PROVIDERS w "diagrams_describe" arguments
    = ([], Return [TextContent document])
    /\ String.prefix ("# " +:+ provider_name provider +:+ nl) document = true
    /\ PyStr.contains
         ("from diagrams." +:+ category +:+ ".<module> import <Node>") document = true
    /\ PyStr.contains
         ("Modules: " +:+ PyStr.join ", " (provider_modules provider) +:+ nl)
         document = true
    /\ PyStr.contains (provider_example provider) document = true
    /\ PyStr.endswith document
         ("- Nodes list: https://diagrams.mingrammer.com/docs/nodes/" +:+ category +:+ nl)
       = true.
Proof.
  intros Hcat Hne Hsplit Hbefore.
  exists (provider_document category provider).
  split; [| split; [| split; [| split; [| split]]]].
  - unfold call_tool. cbn [String.eqb Ascii.eqb Bool.eqb]. unfold ret.
    rewrite (describe_lookup _ _ _ _ Hcat Hne).
    now rewrite (PROVIDERS_get_first _ _ _ _ _ Hsplit Hbefore).
  - unfold provider_document. apply prefix_chain3.
  - unfold provider_document. find_in_chain.
  - unfold provider_document. find_in_chain.
  - unfold provider_document. find_in_chain.
  - unfold provider_document.
    repeat first [apply endswith_refl | apply endswith_append_r].
Qed.

Lemma describe_known_category_witness :
  exists document,
    call_tool OVERVIEW PROVIDERS (Sample.world false) "diagrams_describe"
      (describe_request "aws")
    = ([], Return [TextContent document])
    /\ PyStr.contains "Amazon Web Services" document = true
    /\ PyStr.contains "Modules: analytics, compute, database, network, storage, security, ml, integration"
         document = true.
Proof.
  destruct (describe_known_category OVERVIEW PROVIDERS (Sample.world false)
              (describe_request "aws") [] (List.tl PROVIDERS) "aws" first_provider
              eq_refl ltac:(discriminate) eq_refl ltac:(intros kv []))
    as (document & Hcall & Hname & _ & Hmodules & _).
  exists document. split; [exact Hcall | split].
  - apply prefix_spec in Hname as [post ->].
    change (PyStr.contains "Amazon Web Services"
              ("# " +:+ "Amazon Web Services" +:+ nl +:+ post) = true).
    find_in_chain.
  - apply contains_spec in Hmodules as (pre & post & ->).
    apply contains_append_r.
    change (PyStr.contains
              "Modules: analytics, compute, database, network, storage, security, ml, integration"
              ("Modules: analytics, compute, database, network, storage, security, ml, integration"
               +:+ nl +:+ post) = true).
    apply contains_here.
Defined.

(** X2. For a category that is no key of [PROVIDERS], describe does not
    fail: it answers, without any effect, with one text that names the
    category and lists every key, joined by commas in the order of the
    table. *)
Theorem describe_unknown_category OVERVIEW PROVIDERS (w : World)
  (arguments : gmap string string) category :
  arguments !! "category" = Some category ->
  category <> EmptyString ->
  ~ In category (List.map fst PROVIDERS) ->
  call_tool OVERVIEW PROVIDERS w "diagrams_describe" arguments
  = ([], Return [TextContent
       ("Unknown category: " +:+ category +:+ nl +:+ nl +:+
        "Available: " +:+ PyStr.join ", " (List.map fst PROVIDERS))]).
Proof. apply call_tool_describe_unknown. Qed.

Lemma describe_unknown_category_witness :
  call_tool OVERVIEW PROVIDERS (Sample.world false) "diagrams_describe"
    (describe_request "azure")
  = ([], Return [TextContent
       ("Unknown category: azure" +:+ nl +:+ nl +:+
        "Available: aws, gcp, k8s, onprem")]).
Proof.
  refine (describe_unknown_category OVERVIEW PROVIDERS (Sample.world false)
            (describe_request "azure") "azure" eq_refl _ _).
  - discriminate.
  - intros [H | [H | [H | [H | []]]]]; discriminate.
Defined.

(** X3. Without a usable category, the key missing or its value the
    empty string, describe returns the overview verbatim and performs
    no effect.  The test precedes the lookup: an entry of [PROVIDERS]
    under the empty key could never be described. *)
Theorem describe_without_category OVERVIEW PROVIDERS (w : World)
  (arguments : gmap string string) :
  arguments !! "category" = None \/ arguments !! "category" = Some EmptyString ->
  call_tool OVERVIEW PROVIDERS w "diagrams_describe" arguments
  = ([], Return [TextContent OVERVIEW]).
Proof.
  intros Hcat. unfold call_tool. cbn [String.eqb Ascii.eqb Bool.eqb].
  unfold ret, diagrams_describe. now destruct Hcat as [-> | ->].
Qed.

Lemma describe_without_category_witness :
  call_tool OVERVIEW
    ((EmptyString, first_provider) :: PROVIDERS)
    (Sample.world false) "diagrams_describe" (describe_request EmptyString)
  = ([], Return [TextContent OVERVIEW]).
Proof.
  exact (describe_without_category OVERVIEW
           ((EmptyString, first_provider) :: PROVIDERS)
           (Sample.world false) (describe_request EmptyString)
           (or_intror eq_refl)).
Defined.

(** ** The tool listing *)

Lemma json_strings_map (l : list string) :
  json_strings (JArray (List.map JString l)) = l.
Proof.
  unfold json_strings. induction l as [|s l IH]; [reflexivity |].
  simpl. now rewrite IH.
Qed.

Lemma describe_tool_enum PROVIDERS t :
  find_tool "diagrams_describe" (list_tools PROVIDERS) = Some t ->
  schema_enum t "category" = List.map fst PROVIDERS.
Proof.
  intros H. injection H as <-.
  unfold schema_enum, json_field. cbn [inputSchema List.find fst snd String.eqb
    Ascii.eqb Bool.eqb fmap option_fmap option_map].
  apply json_strings_map.
Qed.

Lemma render_tool_enum PROVIDERS t :
  find_tool "diagrams_render" (list_tools PROVIDERS) = Some t ->
  schema_enum t "format" = ["png"; "svg"; "pdf"].
Proof. intros H. injection H as <-. reflexivity. Qed.

(** X4. A tool name that [list_tools] does not advertise is answered
    with the text [Unknown tool: <name>]; nothing is evaluated or
    written, whatever the arguments. *)
Theorem unlisted_tool_is_unknown OVERVIEW PROVIDERS (w : World) (name : string)
  (arguments : gmap string string) :
  find_tool name (list_tools PROVIDERS) = None ->
  call_tool OVERVIEW PROVIDERS w name arguments
  = ([], Return [TextContent ("Unknown tool: " +:+ name)]).
Proof.
  unfold find_tool, list_tools, call_tool. cbn [List.find tool_name].
  rewrite (String.eqb_sym name "diagrams_describe").
  rewrite (String.eqb_sym name "diagrams_render").
  destruct (String.eqb "diagrams_describe" name); [discriminate |].
  destruct (String.eqb "diagrams_render" name); [discriminate |].
  reflexivity.
Qed.

Lemma unlisted_tool_is_unknown_witness :
  call_tool OVERVIEW PROVIDERS (Sample.world true) "diagrams_list"
    (Sample.request Sample.prog_diagram "png" "diagram")
  = ([], Return [TextContent "Unknown tool: diagrams_list"]).
Proof.
  exact (unlisted_tool_is_unknown OVERVIEW PROVIDERS (Sample.world true)
           "diagrams_list" (Sample.request Sample.prog_diagram "png" "diagram")
           eq_refl).
Defined.

(** X5. The categories that the schema of the describe tool enumerates
    are exactly the ones describe knows: a category of the [enum] gets
    the document of an entry of [PROVIDERS], any other one the
    unknown-category text, whose list of available categories is that
    very [enum]. *)
Theorem schema_categories_are_described OVERVIEW PROVIDERS (w : World)
  (arguments : gmap string string) (t : Tool) (category : string) :
  find_tool "diagrams_describe" (list_tools PROVIDERS) = Some t ->
  arguments !! "category" = Some category ->
  category <> EmptyString ->
  (In category (schema_enum t "category") ->
   exists provider,
     In (category, provider) PROVIDERS
     /\ call_tool OVERVIEW PROVIDERS w "diagrams_describe" arguments
        = ([], Return [TextContent (provider_document category provider)]))
  /\ (~ In category (schema_enum t "category") ->
      call_tool OVERVIEW PROVIDERS w "diagrams_describe" arguments
      = ([], Return [TextContent
           ("Unknown category: " +:+ category +:+ nl +:+ nl +:+
            "Available: " +:+ PyStr.join ", " (schema_enum t "category"))])).
Proof.
  intros Htool Hcat Hne. rewrite (describe_tool_enum _ _ Htool). split.
  - intros Hin. destruct (PROVIDERS_get_key _ _ Hin) as (provider & Hget & Hp).
    exists provider. split; [exact Hp |].
    unfold call_tool. cbn [String.eqb Ascii.eqb Bool.eqb]. unfold ret.
    now rewrite (describe_lookup _ _ _ _ Hcat Hne), Hget.
  - intros Hkey. now apply call_tool_describe_unknown.
Qed.

Lemma schema_categories_are_described_witness :
  exists provider,
    In ("k8s", provider) PROVIDERS
    /\ call_tool OVERVIEW PROVIDERS (Sample.world false) "diagrams_describe"
         (describe_request "k8s")
       = ([], Return [TextContent (provider_document "k8s" provider)]).
Proof.
  refine (proj1 (schema_categories_are_described OVERVIEW PROVIDERS
                   (Sample.world false) (describe_request "k8s") _ "k8s"
                   eq_refl eq_refl _) _).
  - discriminate.
  - right. right. left. reflexivity.
Defined.

(** X6. The formats that the schema of the render tool enumerates are
    png, svg and pdf, the default among them.  Each has an entry in the
    MIME table, distinct formats have distinct MIME types, and none of
    their extensions holds a glob metacharacter. *)
Theorem schema_formats_have_mime_types PROVIDERS (t : Tool) :
  find_tool "diagrams_render" (list_tools PROVIDERS) = Some t ->
  (forall f, In f (schema_enum t "format") <-> supported f)
  /\ In (default "png" (None : option string)) (schema_enum t "format")
  /\ (forall f, In f (schema_enum t "format") ->
        get_mime_type ("." +:+ f) <> "application/octet-stream"
        /\ glob_literal ("." +:+ f) = true)
  /\ (forall f g, In f (schema_enum t "format") -> In g (schema_enum t "format") ->
        get_mime_type ("." +:+ f) = get_mime_type ("." +:+ g) -> f = g).
Proof.
  intros Htool. rewrite (render_tool_enum _ _ Htool).
  split; [| split; [| split]].
  - intros f. reflexivity.
  - now left.
  - intros f [<- | [<- | [<- | []]]]; split; (discriminate || reflexivity).
  - intros f g [<- | [<- | [<- | []]]] [<- | [<- | [<- | []]]];
      (reflexivity || discriminate).
Qed.

Lemma schema_formats_have_mime_types_witness :
  get_mime_type ("." +:+ "pdf") <> "application/octet-stream"
  /\ glob_literal ("." +:+ "pdf") = true.
Proof.
  refine (proj1 (proj2 (proj2 (schema_formats_have_mime_types PROVIDERS _ eq_refl)))
            "pdf" _).
  right. right. left. reflexivity.
Defined.

(** X7. The overview advertises ten providers in its table, while
    [PROVIDERS] holds four: each of the six others occurs in a row of
    the overview and is answered by describe as an unknown category. *)
Theorem overview_advertises_undescribed_providers (w : World) (category : string) :
  In category ["azure"; "generic"; "programming"; "saas"; "firebase"; "elastic"] ->
  PyStr.contains ("| " +:+ category +:+ " |") OVERVIEW = true
  /\ call_tool OVERVIEW PROVIDERS w "diagrams_describe" (describe_request category)
     = ([], Return [TextContent
          ("Unknown category: " +:+ category +:+ nl +:+ nl +:+
           "Available: aws, gcp, k8s, onprem")]).
Proof.
  intros Hin. split.
  - destruct Hin as [<- | [<- | [<- | [<- | [<- | [<- | []]]]]]];
      vm_compute; reflexivity.
  - apply (call_tool_describe_unknown OVERVIEW PROVIDERS w
             (describe_request category) category).
    + apply lookup_insert_eq.
    + destruct Hin as [<- | [<- | [<- | [<- | [<- | [<- | []]]]]]]; discriminate.
    + destruct Hin as [<- | [<- | [<- | [<- | [<- | [<- | []]]]]]];
        intros [H | [H | [H | [H | []]]]]; discriminate.
Qed.

Lemma overview_advertises_undescribed_providers_witness :
  PyStr.contains ("| " +:+ "azure" +:+ " |") OVERVIEW = true
  /\ call_tool OVERVIEW PROVIDERS (Sample.world false) "diagrams_describe"
       (describe_request "azure")
     = ([], Return [TextContent
          ("Unknown category: " +:+ "azure" +:+ nl +:+ nl +:+
           "Available: aws, gcp, k8s, onprem")]).
Proof.
  exact (overview_advertises_undescribed_providers (Sample.world false) "azure"
           (or_introl eq_refl)).
Defined.

Example tables_transcribed :
  String.length OVERVIEW = 1480
  /\ List.map fst PROVIDERS = ["aws"; "gcp"; "k8s"; "onprem"]
  /\ List.map (fun kv => String.length (provider_example (snd kv))) PROVIDERS
     = [330; 226; 346; 385].
Proof. repeat split; vm_compute; reflexivity. Qed.

(** ** The life of a render *)

Lemma find_generated_searches tmpdir entries exts :
  Forall (searches tmpdir) (fst (find_generated tmpdir entries exts)).
Proof.
  induction exts as [|ext exts IH].
  - constructor.
  - rewrite find_generated_cons. destruct (glob_star ext entries) as [|f rest].
    + cbn [fst]. constructor; [reflexivity | exact IH].
    + cbn [fst]. constructor; [reflexivity |].
      constructor; [| constructor]. now exists (fst f).
Qed.

(** The events of a render, whatever the evaluation does. *)
Lemma render_diagram_events w code output_format :
  exists middle,
    fst (render_diagram w code output_format)
    = [EvMkdtemp (tmpdir_name w); EvChdir (tmpdir_name w); EvExec code]
      ++ middle ++ [EvCleanup (tmpdir_name w)]
    /\ Forall (searches (tmpdir_name w)) middle.
Proof.
  destruct (exec_outcome w code) as [entries | e] eqn:Hexec.
  - rewrite (render_diagram_completed _ _ _ _ Hexec). cbn [fst].
    eexists. split; [reflexivity | apply find_generated_searches].
  - rewrite (render_diagram_raised _ _ _ _ Hexec). cbn [fst].
    exists []. split; [reflexivity | constructor].
Qed.

Lemma searches_not_output d ev : searches d ev -> touches_output ev = false.
Proof. destruct ev; simpl; intros H; (reflexivity || contradiction). Qed.

Lemma render_diagram_leaves_output w code output_format :
  Forall (fun ev => touches_output ev = false)
    (fst (render_diagram w code output_format)).
Proof.
  destruct (render_diagram_events w code output_format) as (middle & -> & Hmid).
  repeat (constructor; [reflexivity |]).
  apply Forall_app. split.
  - eapply List.Forall_impl; [| exact Hmid]. apply searches_not_output.
  - now repeat constructor.
Qed.

(** X8. Every render makes the temporary directory first, enters it,
    evaluates the submitted code once, then only globs that directory
    and reads files in it, and removes the directory last: also when
    the evaluation raises, caught or not. *)
Theorem render_diagram_tmpdir_lifecycle (w : World) (code output_format : string) :
  exists middle,
    fst (render_diagram w code output_format)
    = [EvMkdtemp (tmpdir_name w); EvChdir (tmpdir_name w); EvExec code]
      ++ middle ++ [EvCleanup (tmpdir_name w)]
    /\ Forall (fun ev =>
                 match ev with
                 | EvGlob dir _ => dir = tmpdir_name w
                 | EvRead path => exists name, path = tmpdir_name w +:+ "/" +:+ name
                 | _ => False
                 end) middle.
Proof. apply render_diagram_events. Qed.

Lemma not_Exception_uncaught (e : exn) :
  isinstance_Exception e = false ->
  isinstance_SyntaxError e = false /\ isinstance_ImportError e = false.
Proof.
  unfold isinstance_Exception, isinstance_SyntaxError, isinstance_ImportError.
  destruct (exn_class e); intros H; (discriminate || now split).
Qed.

(** X9. An exception that does not derive from [Exception], raised by
    the evaluated code, is caught nowhere: once the temporary directory
    is removed it leaves [render_diagram] and then [call_tool], which
    returns no response and has touched nothing under the output root. *)
Theorem base_exception_propagates OVERVIEW PROVIDERS (w : World)
  (arguments : gmap string string) (e : exn) :
  has_import (default EmptyString (arguments !! "code")) = true ->
  exec_outcome w (default EmptyString (arguments !! "code")) = Raised e ->
  isinstance_Exception e = false ->
  call_tool OVERVIEW PROVIDERS w "diagrams_render" arguments
  = ([EvMkdtemp (tmpdir_name w); EvChdir (tmpdir_name w);
      EvExec (default EmptyString (arguments !! "code"));
      EvCleanup (tmpdir_name w)],
     Raise (Propagated e)).
Proof.
  intros Himport Hexec Hexc.
  destruct (not_Exception_uncaught _ Hexc) as [Hsyn Himp].
  rewrite call_tool_render, (diagrams_render_accepted _ _ Himport).
  rewrite (render_diagram_raised _ _ _ _ Hexec), Hsyn, Himp, Hexc.
  reflexivity.
Qed.

Lemma base_exception_propagates_witness :
  call_tool OVERVIEW PROVIDERS (Sample.world true) "diagrams_render"
    (Sample.request Sample.prog_exit "png" "diagram")
  = ([EvMkdtemp "/tmp/tmpk3v9x2ab"; EvChdir "/tmp/tmpk3v9x2ab";
      EvExec Sample.prog_exit; EvCleanup "/tmp/tmpk3v9x2ab"],
     Raise (Propagated (Exn SystemExit "1"))).
Proof.
  exact (base_exception_propagates OVERVIEW PROVIDERS (Sample.world true)
           (Sample.request Sample.prog_exit "png" "diagram")
           (Exn SystemExit "1") eq_refl eq_refl eq_refl).
Defined.

(** X10. When the render fails the handler answers with the single text
    [Error: ] followed by the diagnostic and stops there: even with an
    [output_path] and a mounted output root it neither tests the root
    nor makes a directory nor writes a file. *)
Theorem failure_never_saves OVERVIEW PROVIDERS (w : World)
  (arguments : gmap string string) log error :
  has_import (default EmptyString (arguments !! "code")) = true ->
  render_diagram w (default EmptyString (arguments !! "code"))
    (default "png" (arguments !! "format"))
  = (log, Return (Failure error)) ->
  call_tool OVERVIEW PROVIDERS w "diagrams_render" arguments
  = (log, Return [TextContent ("Error: " +:+ error)])
  /\ Forall (fun ev => touches_output ev = false)
       (fst (call_tool OVERVIEW PROVIDERS w "diagrams_render" arguments)).
Proof.
  intros Himport Hrender.
  rewrite call_tool_render, (diagrams_render_failure _ _ _ _ Himport Hrender).
  split; [reflexivity |]. cbn [fst].
  pose proof (render_diagram_leaves_output w
                (default EmptyString (arguments !! "code"))
                (default "png" (arguments !! "format"))) as Hlog.
  now rewrite Hrender in Hlog.
Qed.

Lemma failure_never_saves_witness :
  call_tool OVERVIEW PROVIDERS (world_leaving [] true) "diagrams_render"
    (Sample.request Sample.prog_diagram "png" "diagram")
  = ([EvMkdtemp "/tmp/tmpk3v9x2ab"; EvChdir "/tmp/tmpk3v9x2ab";
      EvExec Sample.prog_diagram; EvGlob "/tmp/tmpk3v9x2ab" "*.png";
      EvGlob "/tmp/tmpk3v9x2ab" "*.png"; EvGlob "/tmp/tmpk3v9x2ab" "*.svg";
      EvGlob "/tmp/tmpk3v9x2ab" "*.pdf"; EvCleanup "/tmp/tmpk3v9x2ab"],
     Return [TextContent
       "Error: No diagram file was generated. Ensure your code creates a Diagram with show=False."]).
Proof.
  exact (proj1 (failure_never_saves OVERVIEW PROVIDERS (world_leaving [] true)
                  (Sample.request Sample.prog_diagram "png" "diagram")
                  _ _ eq_refl eq_refl)).
Defined.

(** ** Arguments at the edges *)

(** The render branch reads its arguments through three lookups only. *)
Lemma diagrams_render_ext w (arguments arguments' : gmap string string) :
  arguments !! "code" = arguments' !! "code" ->
  default "png" (arguments !! "format") = default "png" (arguments' !! "format") ->
  (PyStr.truthy (arguments !! "output_path") = true ->
   arguments !! "output_path" = arguments' !! "output_path") ->
  PyStr.truthy (arguments !! "output_path")
  = PyStr.truthy (arguments' !! "output_path") ->
  diagrams_render w arguments = diagrams_render w arguments'.
Proof.
  intros Hcode Hfmt Hpath Htruthy. unfold diagrams_render.
  rewrite <- Hcode, <- Hfmt, <- Htruthy.
  destruct (PyStr.truthy (arguments !! "output_path")).
  - now rewrite <- (Hpath eq_refl).
  - reflexivity.
Qed.

(** X11. A request without [format] is served as a request for [png]:
    the same events and the same response as with the key set. *)
Theorem format_defaults_to_png OVERVIEW PROVIDERS (w : World) (name : string)
  (arguments : gmap string string) :
  arguments !! "format" = None ->
  call_tool OVERVIEW PROVIDERS w name arguments
  = call_tool OVERVIEW PROVIDERS w name (<["format" := "png"]> arguments).
Proof.
  intros Hfmt. unfold call_tool.
  destruct (String.eqb name "diagrams_describe").
  - unfold diagrams_describe. now rewrite lookup_insert_ne.
  - destruct (String.eqb name "diagrams_render"); [| reflexivity].
    apply diagrams_render_ext.
    + now rewrite lookup_insert_ne.
    + now rewrite Hfmt, lookup_insert_eq.
    + intros _. now rewrite lookup_insert_ne.
    + now rewrite lookup_insert_ne.
Qed.

Lemma format_defaults_to_png_witness :
  call_tool OVERVIEW PROVIDERS (Sample.world true) "diagrams_render"
    (<["code" := Sample.prog_diagram]> ∅)
  = call_tool OVERVIEW PROVIDERS (Sample.world true) "diagrams_render"
      (<["format" := "png"]> (<["code" := Sample.prog_diagram]> ∅)).
Proof.
  exact (format_defaults_to_png OVERVIEW PROVIDERS (Sample.world true)
           "diagrams_render" (<["code" := Sample.prog_diagram]> ∅) eq_refl).
Defined.

(** X12. An empty [output_path] counts as none: the call behaves as if
    the key were absent, so nothing is saved and the output root is not
    even tested. *)
Theorem empty_output_path_is_no_save OVERVIEW PROVIDERS (w : World) (name : string)
  (arguments : gmap string string) :
  arguments !! "output_path" = Some EmptyString ->
  call_tool OVERVIEW PROVIDERS w name arguments
  = call_tool OVERVIEW PROVIDERS w name (delete "output_path" arguments)
  /\ Forall (fun ev => touches_output ev = false)
       (fst (call_tool OVERVIEW PROVIDERS w "diagrams_render" arguments)).
Proof.
  intros Hpath. split.
  - unfold call_tool.
    destruct (String.eqb name "diagrams_describe").
    + unfold diagrams_describe. now rewrite lookup_delete_ne.
    + destruct (String.eqb name "diagrams_render"); [| reflexivity].
      apply diagrams_render_ext.
      * now rewrite lookup_delete_ne.
      * now rewrite lookup_delete_ne.
      * rewrite Hpath. discriminate.
      * now rewrite Hpath, lookup_delete_eq.
  - rewrite call_tool_render.
    destruct (has_import (default EmptyString (arguments !! "code"))) eqn:Himport.
    + rewrite (diagrams_render_accepted _ _ Himport), Hpath. cbn [PyStr.truthy String.eqb negb].
      pose proof (render_diagram_leaves_output w
                    (default EmptyString (arguments !! "code"))
                    (default "png" (arguments !! "format"))) as Hlog.
      destruct (render_diagram _ _ _) as [log [[filename content mime_type | error] | e]];
        unfold lift; cbn [fst] in Hlog.
      * rewrite bind_Return, build_contents_log. cbn [fst]. now rewrite app_nil_r.
      * rewrite bind_Return. cbn [fst ret]. now rewrite app_nil_r.
      * exact Hlog.
    + rewrite (diagrams_render_rejected _ _ Himport). constructor.
Qed.

Lemma empty_output_path_is_no_save_witness :
  call_tool OVERVIEW PROVIDERS (Sample.world true) "diagrams_render"
    (Sample.request Sample.prog_diagram "png" EmptyString)
  = call_tool OVERVIEW PROVIDERS (Sample.world true) "diagrams_render"
      (delete "output_path" (Sample.request Sample.prog_diagram "png" EmptyString)).
Proof.
  exact (proj1 (empty_output_path_is_no_save OVERVIEW PROVIDERS (Sample.world true)
                  "diagrams_render"
                  (Sample.request Sample.prog_diagram "png" EmptyString) eq_refl)).
Defined.

Lemma parse_root_absolute (q : string) :
  String.prefix "/" q = true -> PurePosixPath.parse_root q <> EmptyString.
Proof.
  unfold PurePosixPath.parse_root. intros H.
  destruct (String.prefix "///" q); [discriminate |].
  destruct (String.prefix "//" q); [discriminate |].
  rewrite H. discriminate.
Qed.

Lemma truediv_absolute (p : PurePosixPath.t) (q : string) :
  String.prefix "/" q = true ->
  PurePosixPath.truediv p q = PurePosixPath.parse q.
Proof.
  intros H. unfold PurePosixPath.truediv.
  pose proof (parse_root_absolute q H) as Hroot.
  apply String.eqb_neq in Hroot.
  change (PurePosixPath.root (PurePosixPath.parse q)) with (PurePosixPath.parse_root q).
  now rewrite Hroot.
Qed.

Lemma with_extension_absolute (output_path output_format : string) :
  String.prefix "/" output_path = true ->
  String.prefix "/" (with_extension output_path output_format) = true.
Proof.
  intros H. unfold with_extension.
  destruct (PyStr.endswith output_path ("." +:+ output_format)); cbn [negb];
    [exact H |].
  destruct (prefix_spec _ _ H) as [post ->].
  rewrite append_assoc. apply prefix_append.
Qed.

(** X13. An absolute [output_path] replaces the output root instead of
    being resolved under it: the file is written at the path itself,
    extension appended as usual, so a save can land anywhere on the file
    system. *)
Theorem absolute_output_path_leaves_root OVERVIEW PROVIDERS (w : World)
  (arguments : gmap string string) (output_path : string)
  log filename content mime_type :
  let output_format := default "png" (arguments !! "format") in
  has_import (default EmptyString (arguments !! "code")) = true ->
  arguments !! "output_path" = Some output_path ->
  String.prefix "/" output_path = true ->
  output_dir_exists w = true ->
  render_diagram w (default EmptyString (arguments !! "code")) output_format
  = (log, Return (Success filename content mime_type)) ->
  fst (call_tool OVERVIEW PROVIDERS w "diagrams_render" arguments)
  = log ++ [EvExists "/output";
            EvMkdir (PurePosixPath.str (PurePosixPath.parent
              (PurePosixPath.parse (with_extension output_path output_format))));
            EvWrite (PurePosixPath.str
              (PurePosixPath.parse (with_extension output_path output_format)))
              content].
Proof.
  intros output_format Himport Hpath Habs Hroot Hrender.
  rewrite call_tool_render, (diagrams_render_success _ _ _ _ _ _ Himport Hrender).
  unfold full_path. rewrite Hpath.
  change (default EmptyString (Some output_path)) with output_path.
  fold output_format.
  rewrite (truediv_absolute _ _ (with_extension_absolute _ output_format Habs)).
  assert (Hne : PyStr.truthy (Some output_path) = true).
  { destruct output_path; [discriminate | reflexivity]. }
  now rewrite Hne, Hroot.
Qed.

Lemma absolute_output_path_leaves_root_witness :
  fst (call_tool OVERVIEW PROVIDERS (Sample.world true) "diagrams_render"
         (Sample.request Sample.prog_diagram "png" "/etc/cron.d/job"))
  = [EvMkdtemp "/tmp/tmpk3v9x2ab"; EvChdir "/tmp/tmpk3v9x2ab";
     EvExec Sample.prog_diagram; EvGlob "/tmp/tmpk3v9x2ab" "*.png";
     EvRead "/tmp/tmpk3v9x2ab/web_service.png"; EvCleanup "/tmp/tmpk3v9x2ab"]
    ++ [EvExists "/output";
        EvMkdir (PurePosixPath.str (PurePosixPath.parent
          (PurePosixPath.parse (with_extension "/etc/cron.d/job" "png"))));
        EvWrite (PurePosixPath.str
          (PurePosixPath.parse (with_extension "/etc/cron.d/job" "png")))
          Sample.png_bytes].
Proof.
  exact (absolute_output_path_leaves_root OVERVIEW PROVIDERS (Sample.world true)
           (Sample.request Sample.prog_diagram "png" "/etc/cron.d/job")
           "/etc/cron.d/job" _ "web_service.png" Sample.png_bytes "image/png"
           eq_refl eq_refl eq_refl eq_refl eq_refl).
Defined.

Example absolute_output_path_sample :
  PurePosixPath.str (PurePosixPath.parse (with_extension "/etc/cron.d/job" "png"))
  = "/etc/cron.d/job.png"
  /\ PurePosixPath.str (PurePosixPath.parent
       (PurePosixPath.parse (with_extension "/etc/cron.d/job" "png")))
     = "/etc/cron.d".
Proof. split; reflexivity. Qed.

(** X14. Appending the extension is idempotent: a name that went through
    the normalisation of lines 294-295 is left alone by a second pass,
    for every [output_path] and every format. *)
Theorem with_extension_idempotent (output_path output_format : string) :
  with_extension (with_extension output_path output_format) output_format
  = with_extension output_path output_format.
Proof.
  unfold with_extension at 1.
  now rewrite with_extension_endswith.
Qed.

Lemma bind_log {E A B} (m : Eff E A) (k : A -> Eff E B) :
  exists rest, fst (bind m k) = fst m ++ rest.
Proof.
  destruct m as [log [a | e]].
  - rewrite bind_Return. eauto.
  - exists []. cbn [bind fst]. now rewrite app_nil_r.
Qed.

Lemma lift_log {A} (m : Eff exn A) : fst (lift m) = fst m.
Proof. now destruct m as [log [a | e]]. Qed.

(** X15. The validation is a substring test and nothing more: the
    submitted code is evaluated exactly when [from diagrams] or
    [import diagrams] occurs somewhere in it, be it in a comment or a
    string, and no other text is ever evaluated. *)
Theorem evaluated_iff_marker_occurs OVERVIEW PROVIDERS (w : World)
  (arguments : gmap string string) :
  (In (EvExec (default EmptyString (arguments !! "code")))
      (fst (call_tool OVERVIEW PROVIDERS w "diagrams_render" arguments))
   <-> (exists pre post,
          default EmptyString (arguments !! "code") = pre +:+ "from diagrams" +:+ post)
       \/ (exists pre post,
             default EmptyString (arguments !! "code")
             = pre +:+ "import diagrams" +:+ post))
  /\ (forall code,
        In (EvExec code)
           (fst (call_tool OVERVIEW PROVIDERS w "diagrams_render" arguments)) ->
        code = default EmptyString (arguments !! "code")).
Proof.
  rewrite call_tool_render.
  rewrite <- !contains_spec, <- orb_true_iff.
  fold (has_import (default EmptyString (arguments !! "code"))).
  destruct (has_import (default EmptyString (arguments !! "code"))) eqn:Himport.
  - destruct (render_diagram_events w (default EmptyString (arguments !! "code"))
                (default "png" (arguments !! "format"))) as (middle & Hlog & Hmid).
    pose proof (render_diagram_leaves_output w
                  (default EmptyString (arguments !! "code"))
                  (default "png" (arguments !! "format"))) as Hout.
    split.
    + split; [reflexivity | intros _].
      rewrite (diagrams_render_accepted _ _ Himport).
      destruct (bind_log (lift (render_diagram w
                   (default EmptyString (arguments !! "code"))
                   (default "png" (arguments !! "format")))) 
                 (fun result =>
                    match result with
                    | Failure error => ret [TextContent ("Error: " +:+ error)]
                    | Success _ content mime_type =>
                        if PyStr.truthy (arguments !! "output_path") then
                          found <- path_exists w (PurePosixPath.parse "/output") ;;
                          if (found : bool) then
                            emit (EvMkdir (PurePosixPath.str (PurePosixPath.parent
                              (PurePosixPath.truediv (PurePosixPath.parse "/output")
                                 (with_extension
                                    (default EmptyString (arguments !! "output_path"))
                                    (default "png" (arguments !! "format"))))))) ;;;
                            emit (EvWrite (PurePosixPath.str
                              (PurePosixPath.truediv (PurePosixPath.parse "/output")
                                 (with_extension
                                    (default EmptyString (arguments !! "output_path"))
                                    (default "png" (arguments !! "format")))))
                              content) ;;;
                            build_contents (Some (PurePosixPath.str
                              (PurePosixPath.truediv (PurePosixPath.parse "/output")
                                 (with_extension
                                    (default EmptyString (arguments !! "output_path"))
                                    (default "png" (arguments !! "format"))))))
                              (default "png" (arguments !! "format")) content mime_type
                          else ret [TextContent not_mounted_error]
                        else build_contents None (default "png" (arguments !! "format"))
                               content mime_type
                    end)) as [rest ->].
      rewrite lift_log, Hlog. apply in_or_app. left. simpl. auto.
    + intros code Hin.
      destruct (render_diagram w (default EmptyString (arguments !! "code"))
                  (default "png" (arguments !! "format")))
        as [log [[filename content mime_type | error] | e]] eqn:Hrender;
        cbn [fst] in Hlog, Hout.
      * rewrite (diagrams_render_success _ _ _ _ _ _ Himport Hrender) in Hin.
        assert (Hcases : In (EvExec code) log).
        { destruct (PyStr.truthy (arguments !! "output_path"));
            [destruct (output_dir_exists w) |]; cbn [fst] in Hin;
            [apply in_app_or in Hin as [Hin | Hin]; [exact Hin |]
            | apply in_app_or in Hin as [Hin | Hin]; [exact Hin |]
            | exact Hin];
            simpl in Hin; repeat destruct Hin as [Hin | Hin]; try discriminate;
            contradiction. }
        clear Hin. rewrite Hlog in Hcases.
        simpl in Hcases. destruct Hcases as [H | [H | [H | H]]]; try discriminate.
        -- now injection H.
        -- apply in_app_or in H as [H | [H | []]]; [| discriminate].
           rewrite List.Forall_forall in Hmid. now apply Hmid in H.
      * rewrite (diagrams_render_failure _ _ _ _ Himport Hrender) in Hin.
        cbn [fst] in Hin. rewrite Hlog in Hin.
        simpl in Hin. destruct Hin as [H | [H | [H | H]]]; try discriminate.
        -- now injection H.
        -- apply in_app_or in H as [H | [H | []]]; [| discriminate].
           rewrite List.Forall_forall in Hmid. now apply Hmid in H.
      * rewrite (diagrams_render_accepted _ _ Himport), Hrender in Hin.
        cbn [lift bind fst] in Hin. rewrite Hlog in Hin.
        simpl in Hin. destruct Hin as [H | [H | [H | H]]]; try discriminate.
        -- now injection H.
        -- apply in_app_or in H as [H | [H | []]]; [| discriminate].
           rewrite List.Forall_forall in Hmid. now apply Hmid in H.
  - rewrite (diagrams_render_rejected _ _ Himport). cbn [fst]. split.
    + split; [intros [] | discriminate].
    + intros code [].
Qed.

(** ** The search, beyond the formats of the schema *)

Lemma find_generated_Failure tmpdir entries exts error :
  snd (find_generated tmpdir entries exts) = Return (Failure error) ->
  error = no_diagram_error /\ forall ext, In ext exts -> no_match ext entries.
Proof.
  induction exts as [|e exts IH].
  - intros [= <-]. split; [reflexivity | intros ext []].
  - rewrite find_generated_cons.
    destruct (glob_star e entries) as [|f rest] eqn:Hglob.
    + cbn [snd]. intros H. destruct (IH H) as [-> Hall].
      split; [reflexivity |]. intros ext [<- | Hin]; [| now apply Hall].
      now apply glob_star_none.
    + cbn [snd]. destruct (snd f); discriminate.
Qed.

Lemma find_generated_Raise tmpdir entries exts e :
  snd (find_generated tmpdir entries exts) = Raise e ->
  exists earlier ext later name class_name,
    exts = earlier ++ ext :: later
    /\ (forall e', In e' earlier -> no_match e' entries)
    /\ first_match ext entries (name, Unreadable class_name (exn_str e)).
Proof.
  intros Hraise.
  destruct (search_decided entries exts)
    as [Hall | (earlier & ext & later & f & -> & Hearlier & Hf)].
  - rewrite (find_generated_miss _ _ _ Hall) in Hraise. discriminate.
  - rewrite (find_generated_hit _ _ _ _ _ _ Hearlier Hf) in Hraise.
    destruct f as [name [content | class_name message]]; cbn [snd] in Hraise;
      [discriminate |].
    injection Hraise as <-. exists earlier, ext, later, name, class_name. auto.
Qed.

(** X16. After a completed evaluation the render fails in two cases
    only.  Either no entry of the working directory ends with one of
    the four searched extensions, and the diagnostic is the no-diagram
    text; or the entry that the search takes, the first one of the
    first extension that has one, cannot be opened or read, and the
    diagnostic is the text of that error, also when readable files with
    searched extensions lie beside it. *)
Theorem completed_render_fails_iff (w : World) (code output_format : string)
  (entries : list (string * DirEntry)) (error : string) :
  glob_literal ("." +:+ output_format) = true ->
  exec_outcome w code = Completed entries ->
  snd (render_diagram w code output_format) = Return (Failure error)
  <-> (error = "No diagram file was generated. Ensure your code creates a Diagram with show=False."
       /\ forall ext, In ext ["." +:+ output_format; ".png"; ".svg"; ".pdf"] ->
                      no_match ext entries)
      \/ (exists earlier ext later name class_name,
            ["." +:+ output_format; ".png"; ".svg"; ".pdf"] = earlier ++ ext :: later
            /\ (forall e, In e earlier -> no_match e entries)
            /\ first_match ext entries (name, Unreadable class_name error)).
Proof.
  intros _ Hexec. split.
  - rewrite (render_diagram_completed _ _ _ _ Hexec). cbn [snd].
    destruct (snd (find_generated (tmpdir_name w) entries (search_order output_format)))
      as [r | e] eqn:Hfind.
    + intros [= ->]. left. exact (find_generated_Failure _ _ _ _ Hfind).
    + intros [= <-]. right. exact (find_generated_Raise _ _ _ _ Hfind).
  - intros [[-> Hall] | (earlier & ext & later & name & class_name & Horder & Hearlier & Hf)].
    + now apply (render_diagram_miss _ _ _ _ Hexec).
    + exact (render_diagram_hit _ _ _ _ _ _ _ _ Hexec Horder Hearlier Hf).
Qed.

Lemma completed_render_fails_iff_witness :
  snd (render_diagram (Sample.world false) Sample.prog_directory "pdf")
  = Return (Failure "[Errno 21] Is a directory: '/tmp/tmpk3v9x2ab/out.png'").
Proof.
  refine (proj2 (completed_render_fails_iff (Sample.world false) Sample.prog_directory
                   "pdf" [Sample.out_png_directory; ("b.svg", RegularFile Sample.svg_bytes)]
                   _ eq_refl eq_refl)
            (or_intror (ex_intro _ [".pdf"] (ex_intro _ ".png" (ex_intro _ [".svg"; ".pdf"]
               (ex_intro _ "out.png" (ex_intro _ "IsADirectoryError"
                  (conj eq_refl (conj _ _))))))))).
  - intros e [<- | []] g [<- | [<- | []]]; reflexivity.
  - exists [], [("b.svg", RegularFile Sample.svg_bytes)].
    repeat split. intros g [].
Defined.

Lemma get_mime_type_unlisted (output_format : string) :
  ~ supported output_format ->
  get_mime_type ("." +:+ output_format) = "application/octet-stream".
Proof.
  intros Hfmt. unfold get_mime_type.
  assert (Hne : forall known, In known ["png"; "svg"; "pdf"] ->
                  String.eqb ("." +:+ output_format) ("." +:+ known) = false).
  { intros known Hin. apply String.eqb_neq. rewrite !append_cons, !append_nil.
    intros [= ->]. now apply Hfmt. }
  change ".png" with ("." +:+ "png"). change ".svg" with ("." +:+ "svg").
  change ".pdf" with ("." +:+ "pdf").
  rewrite !Hne by (simpl; tauto). reflexivity.
Qed.

(** X17. A format outside the schema is not refused: when the first
    entry with that extension that the program left is a readable file,
    the render succeeds with it and tags it with the fallback MIME type
    [application/octet-stream]. *)
Theorem unlisted_format_is_octet_stream (w : World) (code output_format : string)
  (entries : list (string * DirEntry)) (filename : string) (content : list byte) :
  glob_literal ("." +:+ output_format) = true ->
  ~ supported output_format ->
  exec_outcome w code = Completed entries ->
  first_match ("." +:+ output_format) entries (filename, RegularFile content) ->
  snd (render_diagram w code output_format)
  = Return (Success filename content "application/octet-stream").
Proof.
  intros _ Hfmt Hexec Hf.
  rewrite (render_diagram_hit _ _ _ _ [] _ _ _ Hexec eq_refl
             (fun e (H : In e []) => False_ind _ H) Hf).
  cbn [fst snd]. now rewrite (get_mime_type_unlisted _ Hfmt).
Qed.

Lemma unlisted_format_is_octet_stream_witness :
  snd (render_diagram
         (world_leaving [("chart.png", RegularFile Sample.png_bytes);
                         ("chart.gif", RegularFile Sample.svg_bytes)] false)
         Sample.prog_diagram "gif")
  = Return (Success "chart.gif" Sample.svg_bytes "application/octet-stream").
Proof.
  refine (unlisted_format_is_octet_stream
            (world_leaving [("chart.png", RegularFile Sample.png_bytes);
                            ("chart.gif", RegularFile Sample.svg_bytes)] false)
            Sample.prog_diagram "gif"
            [("chart.png", RegularFile Sample.png_bytes);
             ("chart.gif", RegularFile Sample.svg_bytes)]
            "chart.gif" Sample.svg_bytes eq_refl _ eq_refl _).
  - intros [H | [H | [H | []]]]; discriminate.
  - exists [("chart.png", RegularFile Sample.png_bytes)], [].
    repeat split. intros g [<- | []]. reflexivity.
Defined.

(** ** The base64 text of line 308 *)

Lemma list_triple_ind {A} (P : list A -> Prop) :
  P [] -> (forall a, P [a]) -> (forall a b, P [a; b]) ->
  (forall a b c rest, P rest -> P (a :: b :: c :: rest)) ->
  forall l, P l.
Proof.
  intros H0 H1 H2 H3 l.
  enough (H : P l /\ (forall a, P (a :: l)) /\ (forall a b, P (a :: b :: l)))
    by exact (proj1 H).
  induction l as [|x l (IH0 & IH1 & IH2)].
  - repeat split; auto.
  - repeat split; auto.
Qed.

Lemma b64_alphabet_digits :
  forallb (fun n => match String.get n PyBytes.b64_alphabet with
                    | Some c => b64_char c
                                && (Byte.to_N (byte_of_ascii c) <=? 0x7F)%N
                    | None => false
                    end) (seq 0 64) = true.
Proof. vm_compute. reflexivity. Qed.

Lemma b64_digit_ascii (i : N) :
  b64_char (PyBytes.b64_digit i) = true
  /\ PyBytes.between 0x00 0x7F (byte_of_ascii (PyBytes.b64_digit i)) = true.
Proof.
  unfold PyBytes.b64_digit.
  assert (Hlt : (N.to_nat (N.land i 63) < 64)%nat).
  { change 63%N with (N.ones 6). rewrite N.land_ones.
    pose proof (N.mod_upper_bound i (2 ^ 6) ltac:(discriminate)) as H.
    change (2 ^ 6)%N with 64%N in *. lia. }
  pose proof (proj1 (forallb_forall _ _) b64_alphabet_digits
                (N.to_nat (N.land i 63))) as H.
  cbv beta in H.
  destruct (String.get (N.to_nat (N.land i 63)) PyBytes.b64_alphabet) as [c |].
  - apply andb_true_iff in H as [Hc Hb]; [| apply in_seq; lia].
    split; [exact Hc |]. unfold PyBytes.between.
    rewrite Hb, andb_true_r. apply N.leb_le, N.le_0_l.
  - discriminate H. apply in_seq; lia.
Qed.

Lemma b64_pad_ascii :
  b64_char "="%char = true
  /\ PyBytes.between 0x00 0x7F (byte_of_ascii "="%char) = true.
Proof. split; vm_compute; reflexivity. Qed.

Lemma ascii_well_formed (bs : list byte) (pos : nat) :
  Forall (fun b => PyBytes.between 0x00 0x7F b = true) bs ->
  PyBytes.first_ill_formed bs pos = None.
Proof.
  intros H. revert pos. induction H as [|b bs Hb _ IH]; intros pos.
  - reflexivity.
  - cbn [PyBytes.first_ill_formed]. rewrite Hb. apply IH.
Qed.

Lemma b64encode_group (a b c : byte) (rest : list byte) :
  PyBytes.b64encode (a :: b :: c :: rest)
  = String (PyBytes.b64_digit (N.shiftr (PyBytes.group a b c) 18))
      (String (PyBytes.b64_digit (N.shiftr (PyBytes.group a b c) 12))
         (String (PyBytes.b64_digit (N.shiftr (PyBytes.group a b c) 6))
            (String (PyBytes.b64_digit (PyBytes.group a b c))
               (PyBytes.b64encode rest)))).
Proof. reflexivity. Qed.

Lemma b64encode_chars (bs : list byte) :
  Forall (fun c => b64_char c = true
                   /\ PyBytes.between 0x00 0x7F (byte_of_ascii c) = true)
    (list_ascii_of_string (PyBytes.b64encode bs)).
Proof.
  induction bs as [| a | a b | a b c rest IH] using list_triple_ind.
  - constructor.
  - cbn [PyBytes.b64encode list_ascii_of_string].
    constructor; [apply b64_digit_ascii |].
    constructor; [apply b64_digit_ascii |].
    constructor; [exact b64_pad_ascii |].
    constructor; [exact b64_pad_ascii |]. constructor.
  - cbn [PyBytes.b64encode list_ascii_of_string].
    constructor; [apply b64_digit_ascii |].
    constructor; [apply b64_digit_ascii |].
    constructor; [apply b64_digit_ascii |].
    constructor; [exact b64_pad_ascii |]. constructor.
  - rewrite b64encode_group. cbn [list_ascii_of_string].
    constructor; [apply b64_digit_ascii |].
    constructor; [apply b64_digit_ascii |].
    constructor; [apply b64_digit_ascii |].
    constructor; [apply b64_digit_ascii |]. exact IH.
Qed.

Lemma b64encode_length (bs : list byte) :
  String.length (PyBytes.b64encode bs) = 4 * ((length bs + 2) / 3).
Proof.
  induction bs as [| a | a b | a b c rest IH] using list_triple_ind.
  - reflexivity.
  - reflexivity.
  - reflexivity.
  - rewrite b64encode_group. cbn [String.length length]. rewrite IH.
    replace (S (S (S (length rest))) + 2) with (length rest + 2 + 1 * 3) by lia.
    rewrite Nat.div_add by discriminate. lia.
Qed.

(** X18. The base64 text of an artifact has four characters for every
    started group of three bytes, consists of characters of the base64
    alphabet and the padding sign only, and is ASCII: decoding it as
    line 308 does never fails and gives back the same text, so that line
    raises for no artifact. *)
Theorem b64encode_is_ascii_text (content : list byte) :
  String.length (PyBytes.b64encode content) = 4 * ((length content + 2) / 3)
  /\ Forall (fun c => b64_char c = true)
       (list_ascii_of_string (PyBytes.b64encode content))
  /\ PyBytes.decode (list_byte_of_string (PyBytes.b64encode content))
     = inl (PyBytes.b64encode content).
Proof.
  pose proof (b64encode_chars content) as Hchars.
  split; [apply b64encode_length |]. split.
  - eapply List.Forall_impl; [| exact Hchars]. now intros c [Hc _].
  - unfold PyBytes.decode. rewrite ascii_well_formed.
    + now rewrite string_of_list_byte_of_string.
    + unfold list_byte_of_string. apply List.Forall_map.
      eapply List.Forall_impl; [| exact Hchars]. now intros c [_ Hb].
Qed.

(** ** The size of a response *)

Lemma no_writes_existsb (log : list Event) :
  Forall (fun ev => writes ev = false) log -> existsb writes log = false.
Proof.
  induction 1 as [|ev log Hev _ IH]; [reflexivity |].
  cbn [existsb]. now rewrite Hev, IH.
Qed.

Lemma build_contents_length saved_path output_format content mime_type contents :
  snd (build_contents saved_path output_format content mime_type) = Return contents ->
  length contents = length (saved_items saved_path) + 1.
Proof.
  destruct (String.eqb_spec output_format "svg") as [-> | Hfmt].
  - destruct (PyBytes.decode content) as [text | start] eqn:Hdec.
    + rewrite (build_contents_text _ _ _ _ Hdec). cbn [snd].
      intros [= <-]. now rewrite length_app.
    + rewrite (build_contents_undecodable _ _ _ _ Hdec). discriminate.
  - rewrite (build_contents_image _ _ _ _ Hfmt). cbn [snd].
    intros [= <-]. now rewrite length_app.
Qed.

Lemma diagrams_render_size w (arguments : gmap string string) log contents :
  diagrams_render w arguments = (log, Return contents) ->
  length contents = if existsb writes log then 2 else 1.
Proof.
  destruct (has_import (default EmptyString (arguments !! "code"))) eqn:Himport.
  2:{ rewrite (diagrams_render_rejected _ _ Himport). now intros [= <- <-]. }
  pose proof (render_diagram_log w (default EmptyString (arguments !! "code"))
                (default "png" (arguments !! "format"))) as Hlog.
  destruct (render_diagram w (default EmptyString (arguments !! "code"))
              (default "png" (arguments !! "format")))
    as [rlog [[filename content mime_type | error] | e]] eqn:Hrender;
    cbn [fst] in Hlog; apply no_writes_existsb in Hlog.
  - rewrite (diagrams_render_success _ _ _ _ _ _ Himport Hrender).
    destruct (PyStr.truthy (arguments !! "output_path")).
    + destruct (output_dir_exists w).
      * intros H. pose proof (f_equal fst H) as Hfst.
        apply (f_equal snd) in H. cbn [fst snd] in H, Hfst. subst log.
        rewrite existsb_app, Hlog. cbn [existsb writes orb].
        rewrite (build_contents_length _ _ _ _ _ H).
        unfold saved_items. fold (full_path arguments).
        unfold full_path. now rewrite str_truediv_truthy.
      * intros [= <- <-]. rewrite existsb_app, Hlog. reflexivity.
    + intros H. pose proof (f_equal fst H) as Hfst.
      apply (f_equal snd) in H. cbn [fst snd] in H, Hfst. subst log.
      rewrite Hlog. now rewrite (build_contents_length _ _ _ _ _ H).
  - rewrite (diagrams_render_failure _ _ _ _ Himport Hrender).
    intros [= <- <-]. now rewrite Hlog.
  - rewrite (diagrams_render_accepted _ _ Himport), Hrender.
    unfold lift. cbn [bind fst snd]. discriminate.
Qed.

(** X19. A response is never empty and never longer than two items: it
    holds two items exactly when the call made a directory or wrote a
    file, wherever the save landed, and a single item in every other
    case (a document, an error text, or the artifact alone). *)
Theorem response_has_one_or_two_items OVERVIEW PROVIDERS (w : World)
  (name : string) (arguments : gmap string string)
  (log : list Event) (contents : list Content) :
  call_tool OVERVIEW PROVIDERS w name arguments = (log, Return contents) ->
  length contents = if existsb writes log then 2 else 1.
Proof.
  unfold call_tool.
  destruct (String.eqb name "diagrams_describe").
  - intros [= <- <-]. unfold diagrams_describe.
    destruct (negb (PyStr.truthy (arguments !! "category"))); [reflexivity |].
    now destruct (PROVIDERS_get PROVIDERS _).
  - destruct (String.eqb name "diagrams_render").
    + apply diagrams_render_size.
    + now intros [= <- <-].
Qed.

Lemma response_has_one_or_two_items_witness :
  length [TextContent "Saved to: /output/diagram.png";
          ImageContent "iVBORw0KGgo=" "image/png"] = 2.
Proof.
  exact (response_has_one_or_two_items EmptyString [] (Sample.world true)
           "diagrams_render" (Sample.request Sample.prog_diagram "png" "diagram")
           _ _ sample_saved_png).
Defined.

(** ** Saving comes before decoding *)

(** X20. With format [svg] the artifact is saved before it is decoded:
    when its bytes are not valid UTF-8 and an [output_path] is given
    under a mounted output root, the call ends with
    [UnicodeDecodeError] and no response, yet the file has been written
    with those bytes. *)
Theorem undecodable_svg_is_saved_then_raises OVERVIEW PROVIDERS (w : World)
  (arguments : gmap string string) log filename content mime_type start :
  has_import (default EmptyString (arguments !! "code")) = true ->
  arguments !! "format" = Some "svg" ->
  PyStr.truthy (arguments !! "output_path") = true ->
  output_dir_exists w = true ->
  render_diagram w (default EmptyString (arguments !! "code")) "svg"
  = (log, Return (Success filename content mime_type)) ->
  PyBytes.decode content = inr start ->
  call_tool OVERVIEW PROVIDERS w "diagrams_render" arguments
  = (log ++ [EvExists "/output";
             EvMkdir (PurePosixPath.str (PurePosixPath.parent (full_path arguments)));
             EvWrite (PurePosixPath.str (full_path arguments)) content],
     Raise (UnicodeDecodeError start)).
Proof.
  intros Himport Hfmt Hpath Hroot Hrender Hdec. rewrite call_tool_render.
  assert (Hformat : default "png" (arguments !! "format") = "svg")
    by now rewrite Hfmt.
  rewrite <- Hformat in Hrender.
  rewrite (diagrams_render_success _ _ _ _ _ _ Himport Hrender), Hpath, Hroot.
  now rewrite Hformat, (build_contents_undecodable _ _ _ _ Hdec).
Qed.

Lemma undecodable_svg_is_saved_then_raises_witness :
  call_tool EmptyString [] (Sample.world true) "diagrams_render"
    (Sample.request Sample.prog_diagram "svg" "diagram")
  = ([EvMkdtemp "/tmp/tmpk3v9x2ab"; EvChdir "/tmp/tmpk3v9x2ab";
      EvExec Sample.prog_diagram; EvGlob "/tmp/tmpk3v9x2ab" "*.svg";
      EvGlob "/tmp/tmpk3v9x2ab" "*.png";
      EvRead "/tmp/tmpk3v9x2ab/web_service.png"; EvCleanup "/tmp/tmpk3v9x2ab";
      EvExists "/output"; EvMkdir "/output";
      EvWrite "/output/diagram.svg" Sample.png_bytes],
     Raise (UnicodeDecodeError 0)).
Proof.
  exact (undecodable_svg_is_saved_then_raises EmptyString [] (Sample.world true)
           (Sample.request Sample.prog_diagram "svg" "diagram")
           _ "web_service.png" Sample.png_bytes "image/png" 0
           eq_refl eq_refl eq_refl eq_refl eq_refl eq_refl).
Defined.

(** X21. A render request without [code], which the schema requires, is
    not refused as malformed: the handler takes the empty string for
    the code and answers with the missing-import text, having evaluated
    and touched nothing. *)
Theorem missing_code_is_missing_import OVERVIEW PROVIDERS (w : World)
  (arguments : gmap string string) :
  arguments !! "code" = None ->
  call_tool OVERVIEW PROVIDERS w "diagrams_render" arguments
  = ([], Return [TextContent "Error: Code must import from the diagrams library"]).
Proof.
  intros Hcode. rewrite call_tool_render.
  apply diagrams_render_rejected. now rewrite Hcode.
Qed.

Lemma missing_code_is_missing_import_witness :
  call_tool OVERVIEW PROVIDERS (Sample.world true) "diagrams_render"
    (<["format" := "svg"]> (<["output_path" := "diagram"]> ∅))
  = ([], Return [TextContent "Error: Code must import from the diagrams library"]).
Proof.
  exact (missing_code_is_missing_import OVERVIEW PROVIDERS (Sample.world true)
           (<["format" := "svg"]> (<["output_path" := "diagram"]> ∅)) eq_refl).
Defined.
